(** * A shallow embedding of [src/demo.py]

    The script synthesises NASA-style software-defect tables with NumPy's
    global pseudo-random generator, wraps them in pandas data frames, writes
    them out and prints a summary.

    Modelling conventions.
    - Python integers and int64 array elements are [Z] (every value the
      script handles is far below 2^63, so no wrap-around is written out).
    - float64 arithmetic is idealised: the logistic transform is computed
      over the real numbers [R], means of integer columns over the
      rationals [Q].  [None] in a [pyfloat] stands for [nan].
    - A raised Python exception is [None]; code that reads or updates the
      global generator or the outside world is a function of an explicit
      state, in the monad [M] below.
    - NumPy's generator is not part of the repository: its operations and
      their documented contract form the class [NumPyRandom]; the module
      [Lcg] below gives one generator that meets the contract.
    - The script never reads the file system, so the calls it makes do not
      depend on it: a run records its calls, each with its arguments, as a
      trace of [event]s.  Whether a call raises, and what it leaves behind,
      is decided by running the trace on a file system ([fs_run]), with
      pathlib's [mkdir] and [open] modelled by [path_mkdir] and
      [open_write]: the run raises at the first call that does. *)

From Stdlib Require Import ZArith String Ascii Bool Reals QArith Lia Lra.
From Stdlib Require Import DecimalString List.
Import ListNotations.

Open Scope string_scope.
Open Scope Z_scope.

(** ** Exceptions and state *)

Definition obind {A B : Type} (o : option A) (k : A -> option B) : option B :=
  match o with
  | Some a => k a
  | None => None
  end.

Notation "x <-? o ;; k" := (obind o (fun x => k))
  (at level 61, o at next level, right associativity).

Definition M (S A : Type) : Type := S -> option (A * S).

Definition ret {S A : Type} (a : A) : M S A := fun s => Some (a, s).

Definition bind {S A B : Type} (m : M S A) (k : A -> M S B) : M S B :=
  fun s =>
    match m s with
    | Some (a, s') => k a s'
    | None => None
    end.

Definition lift_opt {S A : Type} (o : option A) : M S A :=
  fun s =>
    match o with
    | Some a => Some (a, s)
    | None => None
    end.

Notation "x <- m ;; k" := (bind m (fun x => k))
  (at level 61, m at next level, right associativity).
Notation "m ;;; k" := (bind m (fun _ => k))
  (at level 61, right associativity).

(** ** Python dictionaries

    A [dict] keeps its keys in insertion order; assigning to an existing key
    replaces the value in place, assigning to a new key appends. *)

Definition dict (V : Type) : Type := list (string * V).

Fixpoint dict_get {V : Type} (d : dict V) (k : string) : option V :=
  match d with
  | [] => None
  | (k', v) :: d' => if String.eqb k' k then Some v else dict_get d' k
  end.

Fixpoint dict_set {V : Type} (d : dict V) (k : string) (v : V) : dict V :=
  match d with
  | [] => [(k, v)]
  | (k', v') :: d' =>
      if String.eqb k' k then (k', v) :: d' else (k', v') :: dict_set d' k v
  end.

(** A dictionary display [{k1: v1, ..., kn: vn}] inserts its items from
    left to right. *)
Definition dict_literal {V : Type} (items : list (string * V)) : dict V :=
  fold_left (fun d kv => dict_set d (fst kv) (snd kv)) items [].

Definition dict_keys {V : Type} (d : dict V) : list string := map fst d.
Definition dict_values {V : Type} (d : dict V) : list V := map snd d.
Definition dict_items {V : Type} (d : dict V) : list (string * V) := d.

(** ** NumPy arrays

    One-dimensional arrays are lists.  An operation between an array and a
    scalar maps over the array; an operation between two arrays broadcasts:
    equal lengths combine element by element, a length-one array is
    stretched, any other pair of shapes raises. *)

Definition broadcast2 (f : R -> R -> R) (a b : list R) : option (list R) :=
  if Nat.eqb (length a) (length b) then
    Some (map (fun xy => f (fst xy) (snd xy)) (combine a b))
  else match a, b with
       | [x], _ => Some (map (fun y => f x y) b)
       | _, [y] => Some (map (fun x => f x y) a)
       | _, _ => None
       end.

(** [a / c] for an int64 array [a] and a Python integer [c]: true division. *)
Definition int_array_div (a : list Z) (c : Z) : list R :=
  map (fun x => (IZR x / IZR c)%R) a.

Definition array_add : list R -> list R -> option (list R) := broadcast2 Rplus.

Definition array_sub_scalar (a : list R) (c : R) : list R :=
  map (fun x => (x - c)%R) a.

Definition scalar_mul_array (c : R) (a : list R) : list R :=
  map (fun x => (c * x)%R) a.

Definition scalar_add_array (c : R) (a : list R) : list R :=
  map (fun x => (c + x)%R) a.

Definition scalar_div_array (c : R) (a : list R) : list R :=
  map (fun x => (c / x)%R) a.

Definition np_exp (a : list R) : list R := map exp a.

(** ** NumPy's global random generator

    [np_seed z] is the generator state that [np.random.seed(z)] installs.
    [np_randint lo hi n] is [np.random.randint(lo, hi, n)] and
    [np_binomial k p n] is [np.random.binomial(k, p, n)] with an array [p];
    both return the drawn array together with the advanced state, or raise.
    The laws are NumPy's documented contract: a draw with valid arguments
    succeeds, has the requested size, and every element lies in the
    sampler's support. *)

Definition int64_min : Z := - 2 ^ 63.
Definition int64_max : Z := 2 ^ 63 - 1.

Definition valid_prob (p : R) : Prop := (0 <= p <= 1)%R.

Class NumPyRandom (G : Type) : Type := {
  np_seed : Z -> G;
  np_randint : Z -> Z -> nat -> G -> option (list Z * G);
  np_binomial : Z -> list R -> nat -> G -> option (list Z * G);
  (** name of the integer dtype of the arrays the samplers return *)
  np_int_dtype : string;
  np_randint_ok :
    forall lo hi n g,
      int64_min <= lo -> lo < hi -> hi <= int64_max + 1 ->
      exists xs g',
        np_randint lo hi n g = Some (xs, g') /\
        length xs = n /\
        Forall (fun x => lo <= x < hi) xs;
  np_binomial_ok :
    forall k ps n g,
      0 <= k <= int64_max -> Forall valid_prob ps -> length ps = n ->
      exists xs g',
        np_binomial k ps n g = Some (xs, g') /\
        length xs = n /\
        Forall (fun x => 0 <= x <= k) xs
}.

(** ** pandas *)

(** A cell of a frame column: an integer, or a missing value. *)
Inductive cell : Type :=
| Int (z : Z)
| NaN.

Definition Series : Type := list cell.

(** A frame is the ordered list of its named columns, all of one length. *)
Definition DataFrame : Type := list (string * Series).

Definition same_length {A : Type} (cols : list (list A)) : bool :=
  match cols with
  | [] => true
  | c :: cs => forallb (fun c' => Nat.eqb (length c') (length c)) cs
  end.

(** [pd.DataFrame(data)] for a dictionary of integer arrays: the columns
    follow the dictionary's order; arrays of different lengths raise. *)
Definition pd_DataFrame (data : dict (list Z)) : option DataFrame :=
  if same_length (dict_values data) then
    Some (map (fun kv => (fst kv, map Int (snd kv))) data)
  else None.

(** [df.columns.tolist()] *)
Definition df_columns (df : DataFrame) : list string := map fst df.

(** [len(df)], also [df.shape[0]] *)
Definition df_len (df : DataFrame) : nat :=
  match df with
  | [] => 0%nat
  | (_, c) :: _ => length c
  end.

(** [df.shape] *)
Definition df_shape (df : DataFrame) : nat * nat :=
  (df_len df, length (df_columns df)).

(** [df[name]] *)
Definition df_getitem (df : DataFrame) (name : string) : option Series :=
  dict_get df name.

Definition isnull (c : cell) : bool :=
  match c with
  | Int _ => false
  | NaN => true
  end.

(** [df.isnull()] *)
Definition df_isnull (df : DataFrame) : list (string * list bool) :=
  map (fun kc => (fst kc, map isnull (snd kc))) df.

(** [.sum()] of a boolean frame: per column, the number of [True]s. *)
Definition bool_frame_sum (bf : list (string * list bool)) : dict Z :=
  map (fun kc => (fst kc, Z.of_nat (count_occ bool_dec (snd kc) true))) bf.

Definition series_dtype (int_dtype : string) (s : Series) : string :=
  if existsb isnull s then "float64" else int_dtype.

(** [df.dtypes.astype(str).to_dict()] *)
Definition df_dtypes (int_dtype : string) (df : DataFrame) : dict string :=
  map (fun kc => (fst kc, series_dtype int_dtype (snd kc))) df.

(** [df.head()]: the first five rows. *)
Definition df_head (df : DataFrame) : DataFrame :=
  map (fun kc => (fst kc, firstn 5 (snd kc))) df.

(** A Python float: a rational, or [nan]. *)
Definition pyfloat : Type := option Q.

Definition series_values (s : Series) : list Z :=
  flat_map (fun c => match c with Int z => [z] | NaN => [] end) s.

Definition Zsum (l : list Z) : Z := fold_right Z.add 0 l.

(** [s.mean()]: missing values are skipped; with no value left the mean is
    [nan]. *)
Definition series_mean (s : Series) : pyfloat :=
  match series_values s with
  | [] => None
  | vs => Some (inject_Z (Zsum vs) / inject_Z (Z.of_nat (length vs)))%Q
  end.

Definition Qsum (l : list Q) : Q := fold_right Qplus 0%Q l.

Fixpoint all_some {A : Type} (l : list (option A)) : option (list A) :=
  match l with
  | [] => Some []
  | None :: _ => None
  | Some a :: l' =>
      match all_some l' with
      | Some r => Some (a :: r)
      | None => None
      end
  end.

(** [np.mean(xs)] of a list of floats: [nan] as soon as one element is,
    and for the empty list. *)
Definition np_mean (xs : list pyfloat) : pyfloat :=
  match all_some xs with
  | Some (q :: qs) =>
      Some (Qsum (q :: qs) / inject_Z (Z.of_nat (length (q :: qs))))%Q
  | _ => None
  end.

(** ** The generator: [create_sample_data] *)

(** Lines 46-51: the composite complexity score, one entry per row. *)
Definition complexity_score (data : dict (list Z)) : option (list R) :=
  v_g <-? dict_get data "v_g" ;;
  ev_g <-? dict_get data "ev_g" ;;
  s1 <-? array_add (int_array_div v_g 50) (int_array_div ev_g 100) ;;
  d <-? dict_get data "d" ;;
  s2 <-? array_add s1 (int_array_div d 100) ;;
  loc <-? dict_get data "loc" ;;
  array_add s2 (int_array_div loc 10000).

(** Line 54: [1 / (1 + np.exp(-2 * (complexity_score - 0.5)))]. *)
Definition defect_prob (score : list R) : list R :=
  scalar_div_array 1
    (scalar_add_array 1
       (np_exp (scalar_mul_array (-2) (array_sub_scalar score 0.5)))).

Definition n_samples : nat := 1000.

Section Generator.
Context {G : Type} {NP : NumPyRandom G}.

Definition np_random_seed (z : Z) : M G unit :=
  fun _ => Some (tt, np_seed z).

Definition np_random_randint (lo hi : Z) (size : nat) : M G (list Z) :=
  np_randint lo hi size.

Definition np_random_binomial (k : Z) (p : list R) (size : nat)
  : M G (list Z) :=
  np_binomial k p size.

Definition create_sample_data : M G DataFrame :=
  np_random_seed 42 ;;;
  loc <- np_random_randint 10 10000 n_samples ;;
  v_g <- np_random_randint 1 50 n_samples ;;
  ev_g <- np_random_randint 1 100 n_samples ;;
  iv_g <- np_random_randint 1 30 n_samples ;;
  n <- np_random_randint 5 500 n_samples ;;
  v <- np_random_randint 10 2000 n_samples ;;
  d <- np_random_randint 1 100 n_samples ;;
  i <- np_random_randint 1 50 n_samples ;;
  e <- np_random_randint 50 50000 n_samples ;;
  b <- np_random_randint 1 1000 n_samples ;;
  t <- np_random_randint 1 3000 n_samples ;;
  lOCode <- np_random_randint 5 8000 n_samples ;;
  lOComment <- np_random_randint 0 2000 n_samples ;;
  lOBlank <- np_random_randint 0 1000 n_samples ;;
  lOCodeAndComment <- np_random_randint 0 100 n_samples ;;
  uniq_Op <- np_random_randint 1 50 n_samples ;;
  uniq_Opnd <- np_random_randint 1 100 n_samples ;;
  total_Op <- np_random_randint 10 1000 n_samples ;;
  total_Opnd <- np_random_randint 10 2000 n_samples ;;
  branchCount <- np_random_randint 0 200 n_samples ;;
  let data :=
    dict_literal
      [("loc", loc); ("v_g", v_g); ("ev_g", ev_g); ("iv_g", iv_g);
       ("n", n); ("v", v); ("d", d); ("i", i); ("e", e); ("b", b);
       ("t", t); ("lOCode", lOCode); ("lOComment", lOComment);
       ("lOBlank", lOBlank); ("lOCodeAndComment", lOCodeAndComment);
       ("uniq_Op", uniq_Op); ("uniq_Opnd", uniq_Opnd);
       ("total_Op", total_Op); ("total_Opnd", total_Opnd);
       ("branchCount", branchCount)] in
  score <- lift_opt (complexity_score data) ;;
  defects <- np_random_binomial 1 (defect_prob score) n_samples ;;
  let data := dict_set data "defects" defects in
  lift_opt (pd_DataFrame data).

End Generator.

(** ** Strings, paths and number formatting *)

Definition nl : string := String "010"%char EmptyString.

(** [str(n)] for a natural number. *)
Definition string_of_nat (n : nat) : string :=
  NilZero.string_of_uint (Nat.to_uint n).

(** [str(z)] for a non-negative integer. *)
Definition string_of_Z (z : Z) : string :=
  NilZero.string_of_uint (N.to_uint (Z.to_N z)).

(** [s * n] *)
Fixpoint str_repeat (s : string) (n : nat) : string :=
  match n with
  | O => ""
  | S n' => s ++ str_repeat s n'
  end.

Definition upper_ascii (c : ascii) : ascii :=
  let k := nat_of_ascii c in
  if (97 <=? k)%nat && (k <=? 122)%nat then ascii_of_nat (k - 32) else c.

(** [s.upper()] on ASCII text. *)
Fixpoint upper (s : string) : string :=
  match s with
  | EmptyString => EmptyString
  | String c s' => String (upper_ascii c) (upper s')
  end.

(** A [pathlib.Path], as the list of its components. *)
Definition Path : Type := list string.

(** [p / name] *)
Definition path_div (p : Path) (name : string) : Path :=
  (p ++ [name])%list.

(** [p.name] *)
Definition path_name (p : Path) : string := last p "".

(** Rounding to the nearest integer, ties to even. *)
Definition round_half_even (q : Q) : Z :=
  let d := Zpos (Qden q) in
  let f := Qnum q / d in
  let r := Qnum q mod d in
  match 2 * r ?= d with
  | Lt => f
  | Gt => f + 1
  | Eq => if Z.even f then f else f + 1
  end.

Definition two_digits (z : Z) : string :=
  if z <? 10 then "0" ++ string_of_Z z else string_of_Z z.

(** [f"{x:.2%}"]: the value times one hundred, in fixed notation with two
    decimals, followed by a percent sign. *)
Definition format_percent (x : pyfloat) : string :=
  match x with
  | None => "nan%"
  | Some q =>
      let s := Z.abs (round_half_even (q * 10000)) in
      (if Qnum q <? 0 then "-" else "")
        ++ string_of_Z (s / 100) ++ "." ++ two_digits (s mod 100) ++ "%"
  end.

(** ** The orchestrator: [simulate_data_processing] *)

(** One entry of the metadata document's [files] list. *)
Record file_info : Type := {
  filename : string;
  rows : nat;
  columns : nat;
  column_names : list string;
  data_types : dict string;
  missing_values : dict Z;
  defect_rate : string;
  description : string
}.

Record metadata_info : Type := {
  dataset_name : string;
  source : string;
  metadata_description : string;
  files : list file_info
}.

(** The mode a file is opened in: ['w'], ['a'] or ['x']. *)
Inductive open_mode : Type :=
| ModeW
| ModeA
| ModeX.

(** What the run does to the outside world, in the order it happens, each
    call with the arguments it is made with:
    [p.mkdir(parents=..., exist_ok=...)], [df.to_csv(p, index=...)],
    [json.dump(doc, f, indent=...)] on [f = open(p, mode)], [print(line)]
    and [print(df)]. *)
Inductive event : Type :=
| Mkdir (p : Path) (parents exist_ok : bool)
| ToCsv (p : Path) (df : DataFrame) (index : bool)
| JsonDump (p : Path) (doc : metadata_info) (mode : open_mode) (indent : Z)
| Print (line : string)
| PrintFrame (df : DataFrame).

Record World (G : Type) : Type := {
  rng : G;
  events : list event
}.
Arguments rng {G} _.
Arguments events {G} _.

Fixpoint for_each {S A : Type} (l : list A) (body : A -> M S unit)
  : M S unit :=
  match l with
  | [] => ret tt
  | x :: l' => body x ;;; for_each l' body
  end.

Fixpoint map_opt {A B : Type} (f : A -> option B) (l : list A)
  : option (list B) :=
  match l with
  | [] => Some []
  | x :: l' =>
      y <-? f x ;;
      ys <-? map_opt f l' ;;
      Some (y :: ys)
  end.

Definition nat_sum (l : list nat) : nat := fold_right Nat.add 0%nat l.

Section Orchestrator.
Context {G : Type} {NP : NumPyRandom G}.

(** A call on the outside world is recorded with its arguments.  The
    script uses no result of such a call, so the calls after it are the
    same whatever it did; what the call does to a file system, and
    whether it raises there, is [fs_step]. *)
Definition emit (e : event) : M (World G) unit :=
  fun w => Some (tt, {| rng := rng w; events := (events w ++ [e])%list |}).

Definition print (line : string) : M (World G) unit := emit (Print line).

(** Run generator code on the world's generator state. *)
Definition with_rng {A : Type} (m : M G A) : M (World G) A :=
  fun w =>
    match m (rng w) with
    | Some (a, g') => Some (a, {| rng := g'; events := events w |})
    | None => None
    end.

(** Lines 103-112: the metadata record of one dataset. *)
Definition make_file_info (name : string) (df : DataFrame)
  : option file_info :=
  defects <-? df_getitem df "defects" ;;
  Some {| filename := name ++ ".csv";
          rows := df_len df;
          columns := length (df_columns df);
          column_names := df_columns df;
          data_types := df_dtypes np_int_dtype df;
          missing_values := bool_frame_sum (df_isnull df);
          defect_rate := format_percent (series_mean defects);
          description :=
            "Sample NASA " ++ upper name ++ " dataset with "
              ++ string_of_nat (df_len df) ++ " samples" |}.

(** Lines 102-113: the loop that appends one record per dataset. *)
Fixpoint collect_file_infos (items : list (string * DataFrame))
  (acc : list file_info) : option (list file_info) :=
  match items with
  | [] => Some acc
  | (name, df) :: items' =>
      fi <-? make_file_info name df ;;
      collect_file_infos items' (acc ++ [fi])%list
  end.

(** [base_dir] is [Path(__file__).parent.parent]. *)
Definition simulate_data_processing (base_dir : Path) : M (World G) unit :=
  print "NASA Software Defect Prediction - Demo Mode" ;;;
  print (str_repeat "=" 50) ;;;
  let data_dir := path_div base_dir "data" in
  let raw_dir := path_div data_dir "raw" in
  let processed_dir := path_div data_dir "processed" in
  let metadata_dir := path_div data_dir "metadata" in
  for_each [raw_dir; processed_dir; metadata_dir]
    (fun directory => emit (Mkdir directory true true)) ;;;
  print "✓ Created data directories" ;;;
  kc1 <- with_rng create_sample_data ;;
  kc2 <- with_rng create_sample_data ;;
  pc1 <- with_rng create_sample_data ;;
  pc2 <- with_rng create_sample_data ;;
  cm1 <- with_rng create_sample_data ;;
  let datasets :=
    dict_literal
      [("kc1", kc1); ("kc2", kc2); ("pc1", pc1); ("pc2", pc2);
       ("cm1", cm1)] in
  print ("✓ Generated " ++ string_of_nat (length datasets)
           ++ " sample datasets") ;;;
  for_each (dict_items datasets)
    (fun item =>
       let name := fst item in
       let df := snd item in
       let csv_file := path_div processed_dir (name ++ ".csv") in
       emit (ToCsv csv_file df false) ;;;
       print ("✓ Saved " ++ name ++ ".csv ("
                ++ string_of_nat (fst (df_shape df)) ++ " rows, "
                ++ string_of_nat (snd (df_shape df)) ++ " columns)")) ;;;
  file_infos <- lift_opt (collect_file_infos (dict_items datasets) []) ;;
  let metadata :=
    {| dataset_name := "NASA Software Defect Prediction (Demo Data)";
       source := "Generated sample data for demonstration";
       metadata_description :=
         "Sample NASA-style software defect prediction datasets";
       files := file_infos |} in
  let metadata_file := path_div metadata_dir "dataset_info.json" in
  emit (JsonDump metadata_file metadata ModeW 2) ;;;
  print ("✓ Created metadata file: " ++ path_name metadata_file) ;;;
  print (nl ++ "Dataset Summary:") ;;;
  print (str_repeat "-" 30) ;;;
  let total_samples := nat_sum (map df_len (dict_values datasets)) in
  rates <- lift_opt
             (map_opt (fun df => option_map series_mean
                                   (df_getitem df "defects"))
                (dict_values datasets)) ;;
  let avg_defect_rate := np_mean rates in
  print ("Total datasets: " ++ string_of_nat (length datasets)) ;;;
  print ("Total samples: " ++ string_of_nat total_samples) ;;;
  print ("Average defect rate: " ++ format_percent avg_defect_rate) ;;;
  print (nl ++ "Example data from kc1.csv:") ;;;
  kc1_frame <- lift_opt (dict_get datasets "kc1") ;;
  emit (PrintFrame (df_head kc1_frame)) ;;;
  print (nl ++ str_repeat "=" 50) ;;;
  print "Demo completed successfully!" ;;;
  print "You can now run 'python scripts/analyze_data.py' to analyze the data.".

Definition main (base_dir : Path) : M (World G) unit :=
  simulate_data_processing base_dir.

End Orchestrator.

(** ** The specification's vocabulary *)

(** The documented column ranges, minimum inclusive and maximum exclusive. *)
Definition documented_ranges : list (string * (Z * Z)) :=
  [("loc", (10, 10000)); ("v_g", (1, 50)); ("ev_g", (1, 100));
   ("iv_g", (1, 30)); ("n", (5, 500)); ("v", (10, 2000)); ("d", (1, 100));
   ("i", (1, 50)); ("e", (50, 50000)); ("b", (1, 1000)); ("t", (1, 3000));
   ("lOCode", (5, 8000)); ("lOComment", (0, 2000)); ("lOBlank", (0, 1000));
   ("lOCodeAndComment", (0, 100)); ("uniq_Op", (1, 50));
   ("uniq_Opnd", (1, 100)); ("total_Op", (10, 1000));
   ("total_Opnd", (10, 2000)); ("branchCount", (0, 200))].

Definition feature_names : list string := map fst documented_ranges.

(** The fixed schema: the twenty features, then the label. *)
Definition schema : list string :=
  ["loc"; "v_g"; "ev_g"; "iv_g"; "n"; "v"; "d"; "i"; "e"; "b"; "t";
   "lOCode"; "lOComment"; "lOBlank"; "lOCodeAndComment"; "uniq_Op";
   "uniq_Opnd"; "total_Op"; "total_Opnd"; "branchCount"; "defects"].

Definition dataset_names : list string := ["kc1"; "kc2"; "pc1"; "pc2"; "cm1"].

(** The features the label is derived from. *)
Definition contributing : list string := ["loc"; "v_g"; "ev_g"; "d"].

(** Cyclomatic complexity/50 + essential complexity/100 + difficulty/100
    + lines of code/10000. *)
Definition spec_score (loc v_g ev_g d : Z) : R :=
  (IZR v_g / 50 + IZR ev_g / 100 + IZR d / 100 + IZR loc / 10000)%R.

(** The logistic function centred at 0.5 with steepness 2. *)
Definition spec_logistic (x : R) : R :=
  (1 / (1 + exp (-2 * (x - 0.5))))%R.

Definition spec_prob (loc v_g ev_g d : Z) : R :=
  spec_logistic (spec_score loc v_g ev_g d).

Definition in_range (r : string * (Z * Z)) (x : Z) : Prop :=
  fst (snd r) <= x < snd (snd r).

(** Row [i] of column [k] of a dictionary of arrays. *)
Definition feature (data : dict (list Z)) (k : string) (i : nat) : option Z :=
  xs <-? dict_get data k ;; nth_error xs i.

(** Row [i] of column [k] of a frame. *)
Definition df_at (df : DataFrame) (k : string) (i : nat) : option cell :=
  col <-? df_getitem df k ;; nth_error col i.

(** The frame [pd.DataFrame] builds when it does not raise. *)
Definition frame_of (data : dict (list Z)) : DataFrame :=
  map (fun kv => (fst kv, map Int (snd kv))) data.

(** ** Auxiliary notions for the proofs *)

Definition column_ok (r : string * (Z * Z)) (xs : list Z) : Prop :=
  length xs = n_samples /\ Forall (in_range r) xs.

(** [generated df g']: [df] is made of twenty feature arrays within their
    ranges and of the labels that the binomial sampler returned for the
    probabilities computed from those features, leaving the generator in
    state [g']. *)
Definition generated {G : Type} {NP : NumPyRandom G}
  (df : DataFrame) (g' : G) : Prop :=
  exists feats score labels g1,
    Forall2 column_ok documented_ranges feats /\
    complexity_score (combine feature_names feats) = Some score /\
    length score = n_samples /\
    np_binomial 1 (defect_prob score) n_samples g1 = Some (labels, g') /\
    length labels = n_samples /\
    Forall (fun x => 0 <= x <= 1) labels /\
    df = frame_of (combine feature_names feats ++ [("defects", labels)])%list.

Definition no_missing (df : DataFrame) : Prop :=
  Forall (fun kc => Forall (fun c => isnull c = false) (snd kc)) df.

(** The metadata record of the dataset [name] whose label column is
    [labels], written out field by field. *)
Definition expected_file_info (int_dtype name : string) (labels : list Z)
  : file_info :=
  {| filename := name ++ ".csv";
     rows := 1000;
     columns := 21;
     column_names := schema;
     data_types := map (fun k => (k, int_dtype)) schema;
     missing_values := map (fun k => (k, 0)) schema;
     defect_rate := format_percent (Some (inject_Z (Zsum labels) / 1000)%Q);
     description :=
       "Sample NASA " ++ upper name ++ " dataset with 1000 samples" |}.

(** Everything one run does, in order, when each call of the generator
    returns the frame [df] with label column [labels]. *)
Definition expected_events (int_dtype : string) (base_dir : Path)
  (df : DataFrame) (labels : list Z) : list event :=
  let data_dir := path_div base_dir "data" in
  let processed_dir := path_div data_dir "processed" in
  let metadata_dir := path_div data_dir "metadata" in
  let rate : pyfloat := Some (inject_Z (Zsum labels) / 1000)%Q in
  [Print "NASA Software Defect Prediction - Demo Mode";
   Print "==================================================";
   Mkdir (path_div data_dir "raw") true true;
   Mkdir processed_dir true true;
   Mkdir metadata_dir true true;
   Print "✓ Created data directories";
   Print "✓ Generated 5 sample datasets";
   ToCsv (path_div processed_dir "kc1.csv") df false;
   Print "✓ Saved kc1.csv (1000 rows, 21 columns)";
   ToCsv (path_div processed_dir "kc2.csv") df false;
   Print "✓ Saved kc2.csv (1000 rows, 21 columns)";
   ToCsv (path_div processed_dir "pc1.csv") df false;
   Print "✓ Saved pc1.csv (1000 rows, 21 columns)";
   ToCsv (path_div processed_dir "pc2.csv") df false;
   Print "✓ Saved pc2.csv (1000 rows, 21 columns)";
   ToCsv (path_div processed_dir "cm1.csv") df false;
   Print "✓ Saved cm1.csv (1000 rows, 21 columns)";
   JsonDump (path_div metadata_dir "dataset_info.json")
     {| dataset_name := "NASA Software Defect Prediction (Demo Data)";
        source := "Generated sample data for demonstration";
        metadata_description :=
          "Sample NASA-style software defect prediction datasets";
        files := map (fun name => expected_file_info int_dtype name labels)
                   dataset_names |}
     ModeW 2;
   Print "✓ Created metadata file: dataset_info.json";
   Print (nl ++ "Dataset Summary:");
   Print "------------------------------";
   Print "Total datasets: 5";
   Print "Total samples: 5000";
   Print ("Average defect rate: "
            ++ format_percent (np_mean [rate; rate; rate; rate; rate]));
   Print (nl ++ "Example data from kc1.csv:");
   PrintFrame (df_head df);
   Print (nl ++ "==================================================");
   Print "Demo completed successfully!";
   Print "You can now run 'python scripts/analyze_data.py' to analyze the data."].

(** What an observer reads off a trace: the tables written, the metadata
    documents written, the lines printed. *)
Definition written_csv (evs : list event) : list (Path * DataFrame) :=
  flat_map (fun e => match e with ToCsv p df _ => [(p, df)] | _ => [] end)
    evs.

Definition dumped_json (evs : list event) : list (Path * metadata_info) :=
  flat_map
    (fun e => match e with JsonDump p doc _ _ => [(p, doc)] | _ => [] end)
    evs.

Definition printed (evs : list event) : list string :=
  flat_map (fun e => match e with Print line => [line] | _ => [] end) evs.

(** The places the run writes to. *)
Definition processed_dir (base_dir : Path) : Path :=
  path_div (path_div base_dir "data") "processed".

Definition metadata_file (base_dir : Path) : Path :=
  path_div (path_div (path_div base_dir "data") "metadata")
    "dataset_info.json".

Definition csv_paths (base_dir : Path) : list Path :=
  map (fun name => path_div (processed_dir base_dir) (name ++ ".csv"))
    dataset_names.

(** [runs_to base_dir w w' new]: started in [w], the program ends without
    raising in [w'], having added the events [new] to the trace. *)
Definition runs_to {G : Type} {NP : NumPyRandom G}
  (base_dir : Path) (w w' : World G) (new : list event) : Prop :=
  simulate_data_processing base_dir w = Some (tt, w') /\
  events w' = (events w ++ new)%list.

(** Every feature column exists and holds integers of its documented
    range only. *)
Definition within_documented_ranges (df : DataFrame) : Prop :=
  Forall (fun r =>
            exists col,
              df_getitem df (fst r) = Some col /\
              Forall (fun c => exists z, c = Int z /\ in_range r z) col)
    documented_ranges.

(** The label column exists and holds zeros and ones only. *)
Definition binary_labels (df : DataFrame) : Prop :=
  exists col,
    df_getitem df "defects" = Some col /\
    Forall (fun c => c = Int 0 \/ c = Int 1) col.

(** Exactly one of the four contributing features grew; the other three
    are unchanged.  Rows are (loc, v_g, ev_g, d). *)
Definition one_feature_increased (r r' : Z * Z * Z * Z) : Prop :=
  let '(loc, v_g, ev_g, d) := r in
  let '(loc', v_g', ev_g', d') := r' in
  (loc < loc' /\ v_g = v_g' /\ ev_g = ev_g' /\ d = d') \/
  (loc = loc' /\ v_g < v_g' /\ ev_g = ev_g' /\ d = d') \/
  (loc = loc' /\ v_g = v_g' /\ ev_g < ev_g' /\ d = d') \/
  (loc = loc' /\ v_g = v_g' /\ ev_g = ev_g' /\ d < d').

(** The four contributing features of a row, (loc, v_g, ev_g, d), lie in
    the ranges the generator draws them from (lines 22, 23, 24 and 28). *)
Definition row_in_ranges (r : Z * Z * Z * Z) : Prop :=
  let '(loc, v_g, ev_g, d) := r in
  10 <= loc < 10000 /\ 1 <= v_g < 50 /\ 1 <= ev_g < 100 /\ 1 <= d < 100.

(** A one-row dictionary of arrays, for examples. *)
Definition sample_row (loc v_g ev_g iv_g d : Z) : dict (list Z) :=
  [("loc", [loc]); ("v_g", [v_g]); ("ev_g", [ev_g]); ("iv_g", [iv_g]);
   ("d", [d])].

(** A starting world for examples: the sample generator in state 0 and an
    empty trace. *)
Definition sample_world : World Z := {| rng := 0; events := [] |}.

(** * Properties *)

Open Scope list_scope.

(** ** Dictionaries *)

Lemma dict_get_app {V : Type} (d d' : dict V) (k : string) :
  dict_get (d ++ d') k =
  match dict_get d k with
  | Some v => Some v
  | None => dict_get d' k
  end.
Proof.
  induction d as [|[k' v'] d IH]; simpl; [reflexivity|].
  destruct (String.eqb k' k); [reflexivity | apply IH].
Qed.

Lemma dict_set_fresh {V : Type} (d : dict V) (k : string) (v : V) :
  dict_get d k = None -> dict_set d k v = (d ++ [(k, v)])%list.
Proof.
  induction d as [|[k' v'] d IH]; simpl; [reflexivity|].
  destruct (String.eqb k' k); [discriminate|].
  intros Hd. now rewrite IH.
Qed.

Lemma dict_get_map_values {V W : Type} (f : V -> W) (d : dict V) (k : string) :
  dict_get (map (fun kv => (fst kv, f (snd kv))) d) k =
  option_map f (dict_get d k).
Proof.
  induction d as [|[k' v'] d IH]; simpl; [reflexivity|].
  destruct (String.eqb k' k); [reflexivity | apply IH].
Qed.

Lemma dict_get_not_in {V : Type} (d : dict V) (k : string) :
  ~ In k (dict_keys d) -> dict_get d k = None.
Proof.
  induction d as [|[k' v'] d IH]; simpl; [reflexivity|].
  intros Hn. destruct (String.eqb_spec k' k) as [->|_].
  - exfalso. apply Hn. now left.
  - apply IH. intros Hin. apply Hn. now right.
Qed.

Lemma dict_keys_combine {A V : Type} (P : A -> V -> Prop) (key : A -> string)
  (rs : list A) (vs : list V) :
  Forall2 P rs vs -> dict_keys (combine (map key rs) vs) = map key rs.
Proof.
  induction 1; simpl; [reflexivity|]. now f_equal.
Qed.

Lemma dict_values_combine {A V : Type} (P : A -> V -> Prop) (key : A -> string)
  (rs : list A) (vs : list V) :
  Forall2 P rs vs -> dict_values (combine (map key rs) vs) = vs.
Proof.
  induction 1; simpl; [reflexivity|]. now f_equal.
Qed.

(** Looking up the key of a table row in the dictionary zipped from the
    table's keys finds a value related to that row. *)
Lemma dict_get_combine {A V : Type} (P : A -> V -> Prop) (key : A -> string)
  (rs : list A) (vs : list V) (r : A) :
  Forall2 P rs vs -> NoDup (map key rs) -> In r rs ->
  exists v, dict_get (combine (map key rs) vs) (key r) = Some v /\ P r v.
Proof.
  induction 1 as [|r0 v0 rs vs HP HF IH]; simpl; [intros _ []|].
  intros Hnd [->|Hin].
  - exists v0. now rewrite String.eqb_refl.
  - inversion Hnd as [|? ? Hnotin Hnd']; subst.
    destruct (String.eqb_spec (key r0) (key r)) as [He|_].
    + exfalso. apply Hnotin. rewrite He. now apply in_map.
    + now apply IH.
Qed.

(** ** Arrays *)

Lemma broadcast2_same_length (f : R -> R -> R) (a b : list R) :
  length a = length b ->
  exists c, broadcast2 f a b = Some c /\ length c = length a.
Proof.
  intros Hl. unfold broadcast2. rewrite Hl, Nat.eqb_refl.
  eexists. split; [reflexivity|].
  rewrite length_map, length_combine. lia.
Qed.

Lemma broadcast2_nth (f : R -> R -> R) (a b c : list R) (i : nat) (x y : R) :
  broadcast2 f a b = Some c ->
  nth_error a i = Some x -> nth_error b i = Some y ->
  nth_error c i = Some (f x y).
Proof.
  unfold broadcast2. intros Hc Ha Hb.
  assert (Hzip : nth_error (map (fun xy => f (fst xy) (snd xy)) (combine a b)) i
                 = Some (f x y)).
  { clear Hc. revert b i Ha Hb.
    induction a as [|a0 a IH]; intros [|b0 b] [|i]; simpl; try discriminate.
    - intros [= ->] [= ->]. reflexivity.
    - apply IH. }
  destruct (Nat.eqb (length a) (length b)).
  - now injection Hc as <-.
  - destruct a as [|x0 [|x1 a]]; [destruct i; discriminate | |].
    + injection Hc as <-.
      destruct i as [|[|i]]; simpl in Ha; try discriminate.
      injection Ha as ->. now apply map_nth_error.
    + destruct b as [|y0 [|y1 b]]; try discriminate.
      injection Hc as <-.
      destruct i as [|[|i]]; simpl in Hb; try discriminate.
      injection Hb as ->. simpl in Ha. injection Ha as ->. reflexivity.
Qed.

Lemma int_array_div_nth (a : list Z) (c : Z) (i : nat) (x : Z) :
  nth_error a i = Some x ->
  nth_error (int_array_div a c) i = Some (IZR x / IZR c)%R.
Proof.
  intros Ha. unfold int_array_div. now rewrite nth_error_map, Ha.
Qed.

Lemma int_array_div_length (a : list Z) (c : Z) :
  length (int_array_div a c) = length a.
Proof. apply length_map. Qed.

(** ** The score and the probability, row by row *)

Lemma complexity_score_nth (data : dict (list Z)) (score : list R) (i : nat)
  (loc v_g ev_g d : Z) :
  complexity_score data = Some score ->
  feature data "loc" i = Some loc ->
  feature data "v_g" i = Some v_g ->
  feature data "ev_g" i = Some ev_g ->
  feature data "d" i = Some d ->
  nth_error score i = Some (spec_score loc v_g ev_g d).
Proof.
  unfold complexity_score, feature, obind, array_add.
  destruct (dict_get data "v_g") as [a_vg|]; [|discriminate].
  destruct (dict_get data "ev_g") as [a_evg|]; [|discriminate].
  destruct (broadcast2 Rplus (int_array_div a_vg 50) (int_array_div a_evg 100))
    as [s1|] eqn:E1; [|discriminate].
  destruct (dict_get data "d") as [a_d|]; [|discriminate].
  destruct (broadcast2 Rplus s1 (int_array_div a_d 100))
    as [s2|] eqn:E2; [|discriminate].
  destruct (dict_get data "loc") as [a_loc|]; [|discriminate].
  intros E3 Hloc Hvg Hevg Hd.
  unfold spec_score.
  apply (broadcast2_nth _ _ _ _ _ _ _ E3); [|now apply int_array_div_nth].
  apply (broadcast2_nth _ _ _ _ _ _ _ E2); [|now apply int_array_div_nth].
  apply (broadcast2_nth _ _ _ _ _ _ _ E1); now apply int_array_div_nth.
Qed.

Lemma complexity_score_total (data : dict (list Z)) (n : nat)
  (a_loc a_vg a_evg a_d : list Z) :
  dict_get data "loc" = Some a_loc -> dict_get data "v_g" = Some a_vg ->
  dict_get data "ev_g" = Some a_evg -> dict_get data "d" = Some a_d ->
  length a_loc = n -> length a_vg = n -> length a_evg = n -> length a_d = n ->
  exists score, complexity_score data = Some score /\ length score = n.
Proof.
  intros Gloc Gvg Gevg Gd Hloc Hvg Hevg Hd.
  unfold complexity_score, obind, array_add.
  rewrite Gloc, Gvg, Gevg, Gd.
  destruct (broadcast2_same_length Rplus (int_array_div a_vg 50)
              (int_array_div a_evg 100)) as (s1 & -> & L1).
  { rewrite !int_array_div_length. congruence. }
  rewrite int_array_div_length in L1.
  destruct (broadcast2_same_length Rplus s1 (int_array_div a_d 100))
    as (s2 & -> & L2).
  { rewrite int_array_div_length. congruence. }
  destruct (broadcast2_same_length Rplus s2 (int_array_div a_loc 10000))
    as (s3 & -> & L3).
  { rewrite int_array_div_length. congruence. }
  exists s3. split; [reflexivity | congruence].
Qed.

Lemma defect_prob_nth (score : list R) (i : nat) :
  nth_error (defect_prob score) i =
  option_map spec_logistic (nth_error score i).
Proof.
  unfold defect_prob, scalar_div_array, scalar_add_array, np_exp,
    scalar_mul_array, array_sub_scalar.
  rewrite !nth_error_map.
  now destruct (nth_error score i).
Qed.

Lemma defect_prob_length (score : list R) :
  length (defect_prob score) = length score.
Proof.
  unfold defect_prob, scalar_div_array, scalar_add_array, np_exp,
    scalar_mul_array, array_sub_scalar.
  now rewrite !length_map.
Qed.

Lemma spec_logistic_bounds (x : R) : (0 < spec_logistic x < 1)%R.
Proof.
  unfold spec_logistic.
  pose proof (exp_pos (-2 * (x - 0.5))) as He.
  split.
  - apply Rdiv_lt_0_compat; lra.
  - apply Rmult_lt_reg_r with (r := (1 + exp (-2 * (x - 0.5)))%R); [lra|].
    unfold Rdiv. rewrite Rmult_assoc, Rinv_l; lra.
Qed.

Lemma spec_logistic_increasing (x y : R) :
  (x < y)%R -> (spec_logistic x < spec_logistic y)%R.
Proof.
  intros Hxy. unfold spec_logistic.
  pose proof (exp_pos (-2 * (y - 0.5))) as Hy.
  assert (He : (exp (-2 * (y - 0.5)) < exp (-2 * (x - 0.5)))%R)
    by (apply exp_increasing; lra).
  unfold Rdiv. rewrite !Rmult_1_l.
  apply Rinv_lt_contravar; [|lra].
  apply Rmult_lt_0_compat; lra.
Qed.

Lemma defect_prob_valid (score : list R) :
  Forall valid_prob (defect_prob score).
Proof.
  apply Forall_forall. intros p Hin.
  apply In_nth_error in Hin as [i Hi].
  rewrite defect_prob_nth in Hi.
  destruct (nth_error score i) as [x|]; [|discriminate].
  injection Hi as <-.
  pose proof (spec_logistic_bounds x). unfold valid_prob. lra.
Qed.

(** ** What a run of the generator returns *)

Lemma same_length_all {A : Type} (n : nat) (cols : list (list A)) :
  Forall (fun c => length c = n) cols -> same_length cols = true.
Proof.
  intros H. destruct H as [|c cs Hc Hcs]; [reflexivity|].
  simpl. apply forallb_forall. intros c' Hin.
  rewrite Forall_forall in Hcs. rewrite (Hcs c' Hin), Hc.
  apply Nat.eqb_refl.
Qed.

Lemma NoDup_by_nodup (l : list string) : nodup string_dec l = l -> NoDup l.
Proof. intros <-. apply NoDup_nodup. Qed.

Lemma feature_names_NoDup : NoDup (map fst documented_ranges).
Proof. apply NoDup_by_nodup. reflexivity. Qed.

Section GeneratorFacts.
Context {G : Type} {NP : NumPyRandom G}.

Ltac draw :=
  match goal with
  | |- context [np_randint ?lo ?hi ?n ?g] =>
      let xs := fresh "xs" in
      let g' := fresh "g" in
      let E := fresh "E" in
      let L := fresh "L" in
      let B := fresh "B" in
      destruct (np_randint_ok lo hi n g) as (xs & g' & E & L & B);
      [ unfold int64_min; lia | lia | unfold int64_max; lia | ];
      rewrite E; cbv beta iota
  end.

Lemma create_sample_data_generated (g : G) :
  exists df g', create_sample_data g = Some (df, g') /\ generated df g'.
Proof.
  unfold create_sample_data, bind, np_random_seed, np_random_randint,
    np_random_binomial.
  do 20 draw.
  cbv zeta.
  match goal with
  | |- context [dict_literal ?l] =>
      replace (dict_literal l) with (combine feature_names (map snd l))
        by reflexivity
  end.
  cbn [map snd].
  match goal with
  | |- context [combine feature_names ?l] => set (feats := l)
  end.
  assert (HF : Forall2 column_ok documented_ranges feats).
  { unfold feats, documented_ranges.
    repeat (constructor; [split; assumption|]). constructor. }
  destruct (complexity_score_total (combine feature_names feats) n_samples
              xs xs0 xs1 xs5) as (score & Hs & Ls);
    try reflexivity; try assumption.
  rewrite Hs. cbn [lift_opt].
  destruct (np_binomial_ok 1 (defect_prob score) n_samples g19)
    as (labels & g' & Eb & Lb & Bb).
  { unfold int64_max. lia. }
  { apply defect_prob_valid. }
  { now rewrite defect_prob_length. }
  rewrite Eb.
  rewrite dict_set_fresh by reflexivity.
  unfold pd_DataFrame.
  rewrite (same_length_all n_samples).
  2:{ unfold dict_values. rewrite map_app.
      apply Forall_app. split.
      - fold (dict_values (combine feature_names feats)).
        unfold feature_names.
        rewrite (dict_values_combine column_ok fst _ _ HF).
        clear -HF.
        induction HF as [|r x rs l' [Hl _] _ IH]; constructor; assumption.
      - repeat constructor. exact Lb. }
  cbn [lift_opt].
  eexists _, _. split; [reflexivity|].
  exists feats, score, labels, g19.
  repeat (split; [assumption || reflexivity|]). reflexivity.
Qed.

(** The generator starts by re-seeding, so the state it is entered in
    does not matter. *)
Lemma create_sample_data_seeded (g : G) :
  create_sample_data g = create_sample_data (np_seed 42).
Proof. reflexivity. Qed.

End GeneratorFacts.

Lemma frame_of_getitem (data : dict (list Z)) (k : string) :
  df_getitem (frame_of data) k = option_map (map Int) (dict_get data k).
Proof. apply dict_get_map_values. Qed.

Lemma frame_of_columns (data : dict (list Z)) :
  df_columns (frame_of data) = dict_keys data.
Proof.
  unfold df_columns, frame_of, dict_keys. rewrite map_map. reflexivity.
Qed.

Lemma features_get (feats : list (list Z)) (r : string * (Z * Z)) :
  Forall2 column_ok documented_ranges feats -> In r documented_ranges ->
  exists xs,
    dict_get (combine feature_names feats) (fst r) = Some xs /\
    column_ok r xs.
Proof.
  intros HF Hin.
  exact (dict_get_combine column_ok fst _ _ r HF feature_names_NoDup Hin).
Qed.

Lemma features_keys (feats : list (list Z)) :
  Forall2 column_ok documented_ranges feats ->
  dict_keys (combine feature_names feats) = feature_names.
Proof. apply (dict_keys_combine column_ok fst). Qed.

Lemma features_fresh_defects (feats : list (list Z)) :
  Forall2 column_ok documented_ranges feats ->
  dict_get (combine feature_names feats) "defects" = None.
Proof.
  intros HF. apply dict_get_not_in. rewrite (features_keys _ HF).
  assert (Hn : existsb (String.eqb "defects") feature_names = false)
    by reflexivity.
  intros Hin.
  assert (Ht : existsb (String.eqb "defects") feature_names = true).
  { apply existsb_exists. exists "defects". split; [exact Hin|].
    apply String.eqb_refl. }
  congruence.
Qed.

Section GeneratedFacts.
Context {G : Type} {NP : NumPyRandom G}.
Variables (df : DataFrame) (g' : G).
Hypothesis Hgen : generated df g'.

Lemma generated_columns : df_columns df = schema.
Proof.
  destruct Hgen as (feats & score & labels & g1 & HF & _ & _ & _ & _ & _ & ->).
  rewrite frame_of_columns. unfold dict_keys. rewrite map_app.
  fold (dict_keys (combine feature_names feats)).
  rewrite (features_keys _ HF). reflexivity.
Qed.

Lemma generated_feature (r : string * (Z * Z)) :
  In r documented_ranges ->
  exists xs, df_getitem df (fst r) = Some (map Int xs) /\ column_ok r xs.
Proof.
  destruct Hgen as (feats & score & labels & g1 & HF & _ & _ & _ & _ & _ & ->).
  intros Hin. destruct (features_get feats r HF Hin) as (xs & Hget & Hok).
  exists xs. split; [|exact Hok].
  now rewrite frame_of_getitem, dict_get_app, Hget.
Qed.

Lemma generated_defects :
  exists labels,
    df_getitem df "defects" = Some (map Int labels) /\
    length labels = n_samples /\
    Forall (fun x => 0 <= x <= 1) labels.
Proof.
  destruct Hgen as (feats & score & labels & g1 & HF & _ & _ & _ & L & B & ->).
  exists labels. split; [|split; assumption].
  rewrite frame_of_getitem, dict_get_app, (features_fresh_defects _ HF).
  reflexivity.
Qed.

Lemma generated_len : df_len df = n_samples.
Proof.
  destruct Hgen as (feats & score & labels & g1 & HF & _ & _ & _ & _ & _ & ->).
  unfold documented_ranges in HF.
  inversion HF as [|r x rs l' [Hl _] _]; subst.
  simpl. now rewrite length_map.
Qed.

(** Every column has [n_samples] cells and every cell is an integer. *)
Lemma generated_cells :
  Forall (fun kc => length (snd kc) = n_samples /\
                    Forall (fun c => isnull c = false) (snd kc)) df.
Proof.
  destruct Hgen as (feats & score & labels & g1 & HF & _ & _ & _ & L & _ & ->).
  unfold frame_of. apply Forall_map. apply Forall_app. split.
  - apply Forall_forall. intros [k xs] Hin. simpl.
    assert (Hxs : In xs (dict_values (combine feature_names feats)))
      by (apply in_map_iff; now exists (k, xs)).
    unfold feature_names in Hxs.
    rewrite (dict_values_combine column_ok fst _ _ HF) in Hxs.
    split.
    + rewrite length_map.
      clear -HF Hxs.
      induction HF as [|r x rs l' [Hl _] _ IH]; [contradiction|].
      destruct Hxs as [<-|Hxs]; [exact Hl | now apply IH].
    + apply Forall_map. apply Forall_forall. reflexivity.
  - repeat constructor; simpl.
    + now rewrite length_map.
    + apply Forall_map. apply Forall_forall. reflexivity.
Qed.

(** The probability of row [i] is the logistic of the score of that
    row's own four features. *)
Lemma generated_probabilities :
  exists probs g1 labels,
    length probs = n_samples /\
    np_binomial 1 probs n_samples g1 = Some (labels, g') /\
    df_getitem df "defects" = Some (map Int labels) /\
    forall i, (i < n_samples)%nat ->
      exists loc v_g ev_g d,
        df_at df "loc" i = Some (Int loc) /\
        df_at df "v_g" i = Some (Int v_g) /\
        df_at df "ev_g" i = Some (Int ev_g) /\
        df_at df "d" i = Some (Int d) /\
        nth_error probs i = Some (spec_prob loc v_g ev_g d).
Proof.
  destruct generated_defects as (labels' & Hdef & _).
  destruct Hgen
    as (feats & score & labels & g1 & HF & Hs & Ls & Hb & L & B & Hdf).
  exists (defect_prob score), g1, labels.
  split; [now rewrite defect_prob_length|].
  split; [exact Hb|].
  split.
  { rewrite Hdf, frame_of_getitem, dict_get_app,
      (features_fresh_defects _ HF). reflexivity. }
  intros i Hi.
  assert (Hrow : forall r, In r documented_ranges ->
            exists x, feature (combine feature_names feats) (fst r) i = Some x
                      /\ df_at df (fst r) i = Some (Int x)).
  { intros r Hin. destruct (features_get feats r HF Hin) as (xs & Hget & Hl & _).
    destruct (nth_error xs i) as [x|] eqn:Hx.
    2:{ apply nth_error_None in Hx. lia. }
    exists x. unfold feature, df_at, obind.
    rewrite Hget, Hdf, frame_of_getitem, dict_get_app, Hget. simpl.
    split; [exact Hx|]. now rewrite nth_error_map, Hx. }
  destruct (Hrow ("loc", (10, 10000))) as (loc & Floc & Dloc);
    [unfold documented_ranges; simpl; tauto|].
  destruct (Hrow ("v_g", (1, 50))) as (v_g & Fvg & Dvg);
    [unfold documented_ranges; simpl; tauto|].
  destruct (Hrow ("ev_g", (1, 100))) as (ev_g & Fevg & Devg);
    [unfold documented_ranges; simpl; tauto|].
  destruct (Hrow ("d", (1, 100))) as (d & Fd & Dd);
    [unfold documented_ranges; simpl; tauto|].
  exists loc, v_g, ev_g, d.
  repeat (split; [assumption|]).
  rewrite defect_prob_nth.
  now rewrite (complexity_score_nth _ _ _ _ _ _ _ Hs Floc Fvg Fevg Fd).
Qed.

End GeneratedFacts.


(** ** Frames without missing values *)

Lemma existsb_isnull_false (s : Series) :
  Forall (fun c => isnull c = false) s -> existsb isnull s = false.
Proof.
  induction 1 as [|c s Hc _ IH]; simpl; [reflexivity|]. now rewrite Hc.
Qed.

Lemma count_null_zero (s : Series) :
  Forall (fun c => isnull c = false) s ->
  count_occ bool_dec (map isnull s) true = 0%nat.
Proof.
  induction 1 as [|c s Hc _ IH]; simpl; [reflexivity|].
  rewrite Hc. destruct (bool_dec false true); [discriminate | exact IH].
Qed.

Lemma df_dtypes_no_missing (t : string) (df : DataFrame) :
  no_missing df -> df_dtypes t df = map (fun k => (k, t)) (df_columns df).
Proof.
  unfold df_dtypes, df_columns, series_dtype.
  induction 1 as [|[k c] df Hc _ IH]; simpl; [reflexivity|].
  simpl in Hc. now rewrite (existsb_isnull_false _ Hc), IH.
Qed.

Lemma missing_counts_no_missing (df : DataFrame) :
  no_missing df ->
  bool_frame_sum (df_isnull df) = map (fun k => (k, 0)) (df_columns df).
Proof.
  unfold bool_frame_sum, df_isnull, df_columns.
  induction 1 as [|[k c] df Hc _ IH]; simpl; [reflexivity|].
  simpl in Hc. now rewrite (count_null_zero _ Hc), IH.
Qed.

Lemma series_values_ints (zs : list Z) : series_values (map Int zs) = zs.
Proof.
  unfold series_values. induction zs as [|z zs IH]; simpl; [reflexivity|].
  now rewrite IH.
Qed.

Lemma series_mean_ints (zs : list Z) :
  zs <> [] ->
  series_mean (map Int zs) =
  Some (inject_Z (Zsum zs) / inject_Z (Z.of_nat (length zs)))%Q.
Proof.
  intros Hne. unfold series_mean. rewrite series_values_ints.
  destruct zs; [contradiction | reflexivity].
Qed.

(** ** The run, event by event *)

Lemma datasets_literal {V : Type} (a b c d e : V) :
  dict_literal [("kc1", a); ("kc2", b); ("pc1", c); ("pc2", d); ("cm1", e)]
  = [("kc1", a); ("kc2", b); ("pc1", c); ("pc2", d); ("cm1", e)].
Proof. reflexivity. Qed.

Lemma path_name_div (p : Path) (name : string) :
  path_name (path_div p name) = name.
Proof. apply last_last. Qed.

Section Run.
Context {G : Type} {NP : NumPyRandom G}.

Lemma with_rng_create (w : World G) (df : DataFrame) (g' : G) :
  create_sample_data (np_seed 42) = Some (df, g') ->
  with_rng create_sample_data w
  = Some (df, {| rng := g'; events := events w |}).
Proof.
  intros E. unfold with_rng. now rewrite create_sample_data_seeded, E.
Qed.

Lemma generated_no_missing (df : DataFrame) (g' : G) :
  generated df g' -> no_missing df.
Proof.
  intros H. eapply Forall_impl; [|exact (generated_cells df g' H)].
  now intros kc [_ Hc].
Qed.

Lemma make_file_info_generated (name : string) (df : DataFrame) (g' : G)
  (labels : list Z) :
  generated df g' ->
  df_getitem df "defects" = Some (map Int labels) ->
  length labels = n_samples ->
  make_file_info name df = Some (expected_file_info np_int_dtype name labels).
Proof.
  intros Hgen Hdef Hl. unfold make_file_info, obind. rewrite Hdef.
  rewrite (df_dtypes_no_missing _ _ (generated_no_missing _ _ Hgen)).
  rewrite (missing_counts_no_missing _ (generated_no_missing _ _ Hgen)).
  rewrite (generated_columns _ _ Hgen), (generated_len _ _ Hgen).
  rewrite series_mean_ints, Hl.
  2:{ intros ->. discriminate Hl. }
  reflexivity.
Qed.

Ltac run_step :=
  cbv beta iota zeta
    delta [bind print emit for_each ret rng events lift_opt dict_items
           dict_values map fst snd collect_file_infos obind map_opt
           option_map df_shape dict_get].

(** The whole run: the generator returns one and the same frame five
    times, and the trace grows by [expected_events]. *)
Lemma simulate_data_processing_run :
  exists df labels g',
    create_sample_data (np_seed 42) = Some (df, g') /\
    generated df g' /\
    df_getitem df "defects" = Some (map Int labels) /\
    length labels = n_samples /\
    forall (base_dir : Path) (w : World G),
      simulate_data_processing base_dir w =
      Some (tt, {| rng := g';
                   events :=
                     events w
                     ++ expected_events np_int_dtype base_dir df labels |}).
Proof.
  destruct (create_sample_data_generated (np_seed 42)) as (df & g' & E & Hgen).
  destruct (generated_defects df g' Hgen) as (labels & Hdef & Hl & _).
  exists df, labels, g'.
  do 4 (split; [assumption|]).
  intros base_dir w.
  unfold simulate_data_processing.
  run_step.
  do 5 (rewrite (with_rng_create _ df g' E); run_step).
  rewrite !datasets_literal.
  run_step.
  rewrite !(make_file_info_generated _ df g' labels Hgen Hdef Hl).
  run_step.
  rewrite !Hdef.
  run_step.
  rewrite !(generated_len _ _ Hgen), !(generated_columns _ _ Hgen).
  rewrite series_mean_ints, Hl by (intros ->; discriminate Hl).
  rewrite String.eqb_refl.
  run_step.
  rewrite path_name_div.
  rewrite <- !app_assoc.
  reflexivity.
Qed.

End Run.

(** ** A generator that meets NumPy's contract

    A linear congruential generator with rejection-free range reduction:
    enough to show that the contract of [NumPyRandom] can be met, and to run
    the model on. *)

Module Lcg.

Definition modulus : Z := 2147483648.

Definition next (s : Z) : Z := (1103515245 * s + 12345) mod modulus.

Fixpoint ints (lo hi : Z) (n : nat) (s : Z) : list Z * Z :=
  match n with
  | O => ([], s)
  | S n' =>
      let s' := next s in
      let r := ints lo hi n' s' in
      ((lo + s' mod (hi - lo)) :: fst r, snd r)
  end.

Definition randint (lo hi : Z) (n : nat) (s : Z) : option (list Z * Z) :=
  if (int64_min <=? lo) && (lo <? hi) && (hi <=? int64_max + 1)
  then Some (ints lo hi n s)
  else None.

Definition uniform (s : Z) : R := (IZR s / IZR modulus)%R.

Definition bernoulli (p : R) (s : Z) : Z :=
  if Rlt_dec (uniform s) p then 1 else 0.

(** The number of successes in [k] trials. *)
Fixpoint trials (k : nat) (p : R) (s : Z) : Z * Z :=
  match k with
  | O => (0, s)
  | S k' =>
      let s' := next s in
      let r := trials k' p s' in
      (bernoulli p s' + fst r, snd r)
  end.

Fixpoint draws (k : nat) (ps : list R) (s : Z) : list Z * Z :=
  match ps with
  | [] => ([], s)
  | p :: ps' =>
      let r := trials k p s in
      let r' := draws k ps' (snd r) in
      (fst r :: fst r', snd r')
  end.

Definition valid_prob_dec (p : R) : {valid_prob p} + {~ valid_prob p}.
Proof.
  unfold valid_prob.
  destruct (Rle_dec 0 p) as [H0|H0]; [|right; tauto].
  destruct (Rle_dec p 1) as [H1|H1]; [left; tauto | right; tauto].
Defined.

Definition binomial (k : Z) (ps : list R) (n : nat) (s : Z)
  : option (list Z * Z) :=
  if (0 <=? k) && (k <=? int64_max) && Nat.eqb (length ps) n then
    if Forall_dec valid_prob valid_prob_dec ps
    then Some (draws (Z.to_nat k) ps s)
    else None
  else None.

Lemma ints_ok (lo hi : Z) (n : nat) (s : Z) :
  lo < hi ->
  length (fst (ints lo hi n s)) = n /\
  Forall (fun x => lo <= x < hi) (fst (ints lo hi n s)).
Proof.
  intros Hlt. revert s. induction n as [|n IH]; intros s; simpl.
  - split; [reflexivity | constructor].
  - destruct (IH (next s)) as [Hl Hb]. split; [now rewrite Hl|].
    constructor; [|exact Hb].
    pose proof (Z.mod_pos_bound (next s) (hi - lo)). lia.
Qed.

Lemma trials_ok (k : nat) (p : R) (s : Z) :
  0 <= fst (trials k p s) <= Z.of_nat k.
Proof.
  revert s. induction k as [|k IH]; intros s; [simpl; lia|].
  cbn [trials fst]. specialize (IH (next s)).
  unfold bernoulli. destruct (Rlt_dec (uniform (next s)) p); lia.
Qed.

Lemma draws_ok (k : nat) (ps : list R) (s : Z) :
  length (fst (draws k ps s)) = length ps /\
  Forall (fun x => 0 <= x <= Z.of_nat k) (fst (draws k ps s)).
Proof.
  revert s. induction ps as [|p ps IH]; intros s; simpl.
  - split; [reflexivity | constructor].
  - destruct (IH (snd (trials k p s))) as [Hl Hb]. split; [now rewrite Hl|].
    constructor; [apply trials_ok | exact Hb].
Qed.

Lemma randint_ok (lo hi : Z) (n : nat) (s : Z) :
  int64_min <= lo -> lo < hi -> hi <= int64_max + 1 ->
  exists xs s',
    randint lo hi n s = Some (xs, s') /\
    length xs = n /\
    Forall (fun x => lo <= x < hi) xs.
Proof.
  intros H1 H2 H3. unfold randint.
  destruct (Z.leb_spec int64_min lo); [|lia].
  destruct (Z.ltb_spec lo hi); [|lia].
  destruct (Z.leb_spec hi (int64_max + 1)); [|lia].
  cbn [andb].
  exists (fst (ints lo hi n s)), (snd (ints lo hi n s)).
  split; [now destruct (ints lo hi n s) | now apply ints_ok].
Qed.

Lemma binomial_ok (k : Z) (ps : list R) (n : nat) (s : Z) :
  0 <= k <= int64_max -> Forall valid_prob ps -> length ps = n ->
  exists xs s',
    binomial k ps n s = Some (xs, s') /\
    length xs = n /\
    Forall (fun x => 0 <= x <= k) xs.
Proof.
  intros [H0 H1] Hv Hl. unfold binomial.
  destruct (Z.leb_spec 0 k); [|lia].
  destruct (Z.leb_spec k int64_max); [|lia].
  rewrite Hl, Nat.eqb_refl. cbn [andb].
  destruct (Forall_dec valid_prob valid_prob_dec ps) as [_|Hn];
    [|contradiction].
  exists (fst (draws (Z.to_nat k) ps s)), (snd (draws (Z.to_nat k) ps s)).
  split; [now destruct (draws (Z.to_nat k) ps s)|].
  destruct (draws_ok (Z.to_nat k) ps s) as [Hlen Hb].
  split; [congruence|].
  rewrite Z2Nat.id in Hb by assumption. exact Hb.
Qed.

Definition numpy_random : NumPyRandom Z :=
  {| np_seed := fun z => z mod modulus;
     np_randint := randint;
     np_binomial := binomial;
     np_int_dtype := "int64";
     np_randint_ok := randint_ok;
     np_binomial_ok := binomial_ok |}.

End Lcg.

(** ** Sanity checks of the model on concrete inputs *)

Example format_percent_523 :
  format_percent (Some (inject_Z 523 / 1000)%Q) = "52.30%".
Proof. reflexivity. Qed.

Example format_percent_third : format_percent (Some (1 # 3)%Q) = "33.33%".
Proof. reflexivity. Qed.

Example format_percent_nan : format_percent None = "nan%".
Proof. reflexivity. Qed.

Example upper_kc1 : upper "kc1" = "KC1".
Proof. reflexivity. Qed.

Example dict_set_replaces_in_place :
  dict_literal [("a", 1); ("b", 2); ("a", 3)] = [("a", 3); ("b", 2)].
Proof. reflexivity. Qed.

Example pd_DataFrame_ragged :
  pd_DataFrame [("a", [1; 2]); ("b", [3])] = None.
Proof. reflexivity. Qed.

Example series_mean_skips_missing :
  series_mean [Int 1; NaN; Int 0; Int 1] = Some (2 # 3)%Q.
Proof. reflexivity. Qed.

Example lcg_randint_sample :
  fst (Lcg.ints 10 10000 5 42) = [7777; 9684; 8433; 5156; 4745].
Proof. reflexivity. Qed.

(** ** What an observer reads off the run *)

Lemma written_csv_expected (t : string) (b : Path) (df : DataFrame)
  (labels : list Z) :
  written_csv (expected_events t b df labels)
  = map (fun p => (p, df)) (csv_paths b).
Proof. reflexivity. Qed.

Lemma dumped_json_expected (t : string) (b : Path) (df : DataFrame)
  (labels : list Z) :
  dumped_json (expected_events t b df labels)
  = [(metadata_file b,
      {| dataset_name := "NASA Software Defect Prediction (Demo Data)";
         source := "Generated sample data for demonstration";
         metadata_description :=
           "Sample NASA-style software defect prediction datasets";
         files := map (fun name => expected_file_info t name labels)
                    dataset_names |})].
Proof. reflexivity. Qed.

Lemma printed_expected (t : string) (b : Path) (df : DataFrame)
  (labels : list Z) :
  exists pre post,
    printed (expected_events t b df labels)
    = pre
      ++ ["Total datasets: 5"; "Total samples: 5000";
          ("Average defect rate: "
             ++ format_percent
                  (np_mean
                     (repeat (Some (inject_Z (Zsum labels) / 1000)%Q) 5)))%string]
      ++ post.
Proof.
  eexists (firstn 12 (printed (expected_events t b df labels))), _.
  reflexivity.
Qed.

Lemma map_Int_injective (xs ys : list Z) : map Int xs = map Int ys -> xs = ys.
Proof.
  revert ys. induction xs as [|x xs IH]; intros [|y ys]; simpl;
    try discriminate; [reflexivity|].
  intros [= -> H]. f_equal. now apply IH.
Qed.

Lemma generated_within_ranges {G : Type} {NP : NumPyRandom G}
  (df : DataFrame) (g' : G) :
  generated df g' -> within_documented_ranges df.
Proof.
  intros Hgen. apply Forall_forall. intros r Hin.
  destruct (generated_feature df g' Hgen r Hin) as (xs & Hget & _ & Hr).
  exists (map Int xs). split; [exact Hget|].
  apply Forall_map. eapply Forall_impl; [|exact Hr].
  intros z Hz. now exists z.
Qed.

Section RunFacts.
Context {G : Type} {NP : NumPyRandom G}.

Lemma run_from (df : DataFrame) (labels : list Z) (g' : G) :
  (forall (base_dir : Path) (w : World G),
      simulate_data_processing base_dir w =
      Some (tt, {| rng := g';
                   events :=
                     events w
                     ++ expected_events np_int_dtype base_dir df labels |})) ->
  forall base_dir w,
    exists w',
      runs_to base_dir w w' (expected_events np_int_dtype base_dir df labels)
      /\ rng w' = g'.
Proof.
  intros Hrun base_dir w. eexists.
  split; [split|]; [apply Hrun | |]; reflexivity.
Qed.

(** All five calls of the generator in one run return the frame that the
    generator returns from any state. *)
Lemma run_of_generator :
  exists df labels g',
    (forall g : G, create_sample_data g = Some (df, g')) /\
    generated df g' /\
    df_getitem df "defects" = Some (map Int labels) /\
    length labels = n_samples /\
    Forall (fun x => 0 <= x <= 1) labels /\
    forall base_dir w,
      exists w',
        runs_to base_dir w w'
          (expected_events np_int_dtype base_dir df labels) /\
        rng w' = g'.
Proof.
  destruct simulate_data_processing_run
    as (df & labels & g' & E & Hgen & Hdef & Hl & Hrun).
  exists df, labels, g'.
  split; [intros g; now rewrite create_sample_data_seeded|].
  split; [exact Hgen|]. split; [exact Hdef|]. split; [exact Hl|].
  split; [|now apply run_from].
  destruct (generated_defects df g' Hgen) as (labels' & Hdef' & _ & Hb).
  rewrite Hdef in Hdef'. injection Hdef' as Heq.
  now rewrite (map_Int_injective _ _ Heq).
Qed.

End RunFacts.

Lemma spec_score_increasing (loc v_g ev_g d loc' v_g' ev_g' d' : Z) :
  loc <= loc' -> v_g <= v_g' -> ev_g <= ev_g' -> d <= d' ->
  loc < loc' \/ v_g < v_g' \/ ev_g < ev_g' \/ d < d' ->
  (spec_score loc v_g ev_g d < spec_score loc' v_g' ev_g' d')%R.
Proof.
  intros H1 H2 H3 H4 Hlt. unfold spec_score.
  apply IZR_le in H1, H2, H3, H4.
  destruct Hlt as [H|[H|[H|H]]]; apply IZR_lt in H; lra.
Qed.

(** ** Formatting a rate of so many in a thousand *)

Lemma string_app_assoc (a b c : string) :
  ((a ++ b) ++ c = a ++ (b ++ c))%string.
Proof. induction a as [|x a IH]; simpl; [reflexivity | now rewrite IH]. Qed.

Lemma round_half_even_thousandths (k : Z) :
  round_half_even (inject_Z k / 1000 * 10000)%Q = 10 * k.
Proof.
  unfold round_half_even.
  cbn [Qnum Qden Qmult Qdiv Qinv inject_Z].
  change (Z.pos (1 * 1000 * 1)) with 1000.
  replace (k * 1 * 10000) with (10 * k * 1000) by ring.
  rewrite Z_div_mult by lia. rewrite Z_mod_mult. reflexivity.
Qed.

Lemma two_digits_tens (j : Z) :
  0 <= j < 10 -> two_digits (10 * j) = (string_of_Z j ++ "0")%string.
Proof.
  intros Hj.
  assert (j = 0 \/ j = 1 \/ j = 2 \/ j = 3 \/ j = 4 \/ j = 5 \/ j = 6 \/
          j = 7 \/ j = 8 \/ j = 9) as H by lia.
  repeat (destruct H as [->|H]; [reflexivity|]). subst. reflexivity.
Qed.

Lemma format_percent_thousandths (k : Z) :
  0 <= k ->
  format_percent (Some (inject_Z k / 1000)%Q)
  = (string_of_Z (k / 10) ++ "." ++ string_of_Z (k mod 10) ++ "0%")%string.
Proof.
  intros Hk. unfold format_percent.
  rewrite round_half_even_thousandths.
  assert (Hsign : (Qnum (inject_Z k / 1000)%Q <? 0) = false).
  { apply Z.ltb_ge. cbn [Qnum Qdiv Qinv Qmult inject_Z]. simpl. lia. }
  rewrite Hsign. cbn [String.append].
  rewrite Z.abs_eq by lia.
  replace (10 * k / 100) with (k / 10).
  2:{ replace 100 with (10 * 10) by reflexivity.
      rewrite Z.div_mul_cancel_l by lia. reflexivity. }
  replace (10 * k mod 100) with (10 * (k mod 10)).
  2:{ replace 100 with (10 * 10) by reflexivity.
      rewrite Z.mul_mod_distr_l by lia. reflexivity. }
  rewrite two_digits_tens by (apply Z.mod_pos_bound; lia).
  now rewrite string_app_assoc.
Qed.

Lemma Zdiv_cross (n n' d d' : Z) :
  0 < d -> 0 < d' -> n * d' = n' * d -> n / d = n' / d'.
Proof.
  intros Hd Hd' He.
  assert (H1 : n / d = (n * d') / (d * d')).
  { symmetry. apply Z.div_mul_cancel_r; lia. }
  assert (H2 : n' / d' = (n' * d) / (d' * d)).
  { symmetry. apply Z.div_mul_cancel_r; lia. }
  rewrite H1, H2, He. f_equal. ring.
Qed.

Lemma Zcompare_scale (a b c : Z) :
  0 < c -> (a ?= b) = (a * c ?= b * c).
Proof.
  intros Hc.
  destruct (Z.compare_spec a b), (Z.compare_spec (a * c) (b * c));
    try reflexivity; nia.
Qed.

(** Rounding looks at the value of a fraction, not at how it is written. *)
Lemma round_half_even_Qeq (q q' : Q) :
  (q == q')%Q -> round_half_even q = round_half_even q'.
Proof.
  unfold Qeq, round_half_even. intros He.
  set (n := Qnum q) in *. set (d := Z.pos (Qden q)) in *.
  set (n' := Qnum q') in *. set (d' := Z.pos (Qden q')) in *.
  assert (Hd : 0 < d) by (unfold d; lia).
  assert (Hd' : 0 < d') by (unfold d'; lia).
  assert (Hf : n / d = n' / d') by (now apply Zdiv_cross).
  rewrite !Z.mod_eq by lia. rewrite <- Hf.
  set (f := n / d).
  assert (Hc : (2 * (n - d * f) ?= d) = (2 * (n' - d' * f) ?= d')).
  { rewrite (Zcompare_scale (2 * (n - d * f)) d d') by exact Hd'.
    rewrite (Zcompare_scale (2 * (n' - d' * f)) d' d) by exact Hd.
    f_equal; [|ring].
    replace (2 * (n - d * f) * d') with (2 * (n * d' - d * d' * f)) by ring.
    replace (2 * (n' - d' * f) * d) with (2 * (n' * d - d * d' * f)) by ring.
    now rewrite He. }
  now rewrite Hc.
Qed.

Lemma Qnum_sign_Qeq (q q' : Q) :
  (q == q')%Q -> (Qnum q <? 0) = (Qnum q' <? 0).
Proof.
  unfold Qeq. intros He.
  destruct (Z.ltb_spec (Qnum q) 0), (Z.ltb_spec (Qnum q') 0);
    try reflexivity; nia.
Qed.

Lemma format_percent_Qeq (q q' : Q) :
  (q == q')%Q -> format_percent (Some q) = format_percent (Some q').
Proof.
  intros He. unfold format_percent.
  rewrite (Qnum_sign_Qeq _ _ He).
  rewrite (round_half_even_Qeq (q * 10000) (q' * 10000)); [reflexivity|].
  now rewrite He.
Qed.

Lemma mean_of_five_equal (q : Q) : (Qsum (repeat q 5) / 5 == q)%Q.
Proof. unfold Qsum. simpl. field. Qed.

Lemma Zsum_binary_bounds (zs : list Z) :
  Forall (fun x => 0 <= x <= 1) zs -> 0 <= Zsum zs <= Z.of_nat (length zs).
Proof.
  induction 1 as [|z zs Hz _ IH]; [simpl; lia|].
  cbn [Zsum fold_right length]. fold (Zsum zs). lia.
Qed.

(** * The claims *)

(** C1: the generator returns a table of 1000 rows, and for every row of
    it the defect label is derived as the specification says.  The
    composite score of the row is v_g/50 + ev_g/100 + d/100 + loc/10000
    ([spec_score]), the row's probability is the logistic
    1/(1 + exp(-2*(score - 0.5))) of that score ([spec_logistic]), and the
    label column is what the binomial sampler draws with one trial per row
    at those probabilities: 1000 probabilities in, 1000 labels out, the
    label of row [i] stored in row [i] of [defects]. *)
Theorem C1_label_derivation (G : Type) (NP : NumPyRandom G) (g : G) :
  exists df g_end probs g_draw labels,
    create_sample_data g = Some (df, g_end) /\
    df_len df = 1000%nat /\
    length probs = df_len df /\
    length labels = df_len df /\
    np_binomial 1 probs (df_len df) g_draw = Some (labels, g_end) /\
    df_getitem df "defects" = Some (map Int labels) /\
    forall i, (i < df_len df)%nat ->
      exists loc v_g ev_g d label,
        df_at df "loc" i = Some (Int loc) /\
        df_at df "v_g" i = Some (Int v_g) /\
        df_at df "ev_g" i = Some (Int ev_g) /\
        df_at df "d" i = Some (Int d) /\
        nth_error probs i
        = Some (spec_logistic (spec_score loc v_g ev_g d)) /\
        nth_error labels i = Some label /\
        df_at df "defects" i = Some (Int label).
Proof.
  destruct (create_sample_data_generated g) as (df & g_end & E & Hgen).
  destruct (generated_probabilities df g_end Hgen)
    as (probs & g_draw & labels & Hl & Hb & Hdef & Hrows).
  destruct (generated_defects df g_end Hgen) as (labels' & Hdef' & Hlen & _).
  rewrite Hdef in Hdef'. injection Hdef' as Heq.
  apply map_Int_injective in Heq. subst labels'.
  exists df, g_end, probs, g_draw, labels.
  rewrite (generated_len df g_end Hgen).
  split; [exact E|]. split; [reflexivity|].
  split; [exact Hl|]. split; [exact Hlen|].
  split; [exact Hb|]. split; [exact Hdef|].
  intros i Hi.
  destruct (Hrows i Hi) as (loc & v_g & ev_g & d & Al & Av & Ae & Ad & Hp).
  destruct (nth_error labels i) as [label|] eqn:Hlab.
  2:{ apply nth_error_None in Hlab. lia. }
  exists loc, v_g, ev_g, d, label.
  repeat (split; [assumption|]).
  split; [reflexivity|].
  unfold df_at, obind. rewrite Hdef, nth_error_map, Hlab. reflexivity.
Qed.

(** C1 at the sample generator [Lcg.numpy_random], entered in state 0. *)
Lemma C1_label_derivation_witness :
  exists df g_end probs g_draw labels,
    @create_sample_data Z Lcg.numpy_random 0 = Some (df, g_end) /\
    df_len df = 1000%nat /\
    length probs = df_len df /\
    length labels = df_len df /\
    Lcg.binomial 1 probs (df_len df) g_draw = Some (labels, g_end) /\
    df_getitem df "defects" = Some (map Int labels) /\
    forall i, (i < df_len df)%nat ->
      exists loc v_g ev_g d label,
        df_at df "loc" i = Some (Int loc) /\
        df_at df "v_g" i = Some (Int v_g) /\
        df_at df "ev_g" i = Some (Int ev_g) /\
        df_at df "d" i = Some (Int d) /\
        nth_error probs i
        = Some (spec_logistic (spec_score loc v_g ev_g d)) /\
        nth_error labels i = Some label /\
        df_at df "defects" i = Some (Int label).
Proof. exact (C1_label_derivation Z Lcg.numpy_random 0). Defined.

(** C2: the generator is deterministic.  It re-seeds with 42 before it
    draws, so from any two generator states it returns the same table (and
    leaves the same state); the five tables written in one run are equal to
    each other; and two runs of the whole program, whatever state they
    start in, add the same events to the trace. *)
Theorem C2_determinism (G : Type) (NP : NumPyRandom G) :
  exists df g_end,
    (forall g : G, create_sample_data g = Some (df, g_end)) /\
    (forall base_dir (w : World G),
        exists w' new,
          runs_to base_dir w w' new /\
          map fst (written_csv new) = csv_paths base_dir /\
          map snd (written_csv new) = [df; df; df; df; df]) /\
    (forall base_dir (w1 w2 : World G),
        exists w1' w2' new,
          runs_to base_dir w1 w1' new /\
          runs_to base_dir w2 w2' new /\
          rng w1' = rng w2').
Proof.
  destruct (@run_of_generator G NP)
    as (df & labels & g' & Hcreate & _ & _ & _ & _ & Hrun).
  exists df, g'. split; [exact Hcreate|]. split.
  - intros base_dir w. destruct (Hrun base_dir w) as (w' & Hto & _).
    exists w', (expected_events np_int_dtype base_dir df labels).
    split; [exact Hto|]. split; reflexivity.
  - intros base_dir w1 w2.
    destruct (Hrun base_dir w1) as (w1' & Hto1 & Hg1).
    destruct (Hrun base_dir w2) as (w2' & Hto2 & Hg2).
    exists w1', w2', (expected_events np_int_dtype base_dir df labels).
    split; [exact Hto1|]. split; [exact Hto2 | congruence].
Qed.

(** C2 at the sample generator: entered in state 0 or in state 12345, it
    returns the same table and leaves the same state. *)
Lemma C2_determinism_witness :
  exists df g_end,
    @create_sample_data Z Lcg.numpy_random 0 = Some (df, g_end) /\
    @create_sample_data Z Lcg.numpy_random 12345 = Some (df, g_end).
Proof.
  destruct (C2_determinism Z Lcg.numpy_random) as (df & g_end & H & _).
  exists df, g_end. split; apply H.
Defined.

(** C3: in every generated dataset, every value of every one of the twenty
    feature columns lies in the column's documented half-open range
    ([documented_ranges]); this holds for the table the generator returns
    and for each of the five tables a run writes. *)
Theorem C3_feature_ranges (G : Type) (NP : NumPyRandom G) :
  length documented_ranges = 20%nat /\
  (forall g : G,
      exists df g',
        create_sample_data g = Some (df, g') /\ within_documented_ranges df) /\
  (forall base_dir (w : World G),
      exists w' new,
        runs_to base_dir w w' new /\
        map fst (written_csv new) = csv_paths base_dir /\
        Forall (fun pd => within_documented_ranges (snd pd))
          (written_csv new)).
Proof.
  destruct (@run_of_generator G NP)
    as (df & labels & g' & Hcreate & Hgen & _ & _ & _ & Hrun).
  pose proof (generated_within_ranges df g' Hgen) as Hr.
  split; [reflexivity|]. split.
  - intros g. exists df, g'. split; [apply Hcreate | exact Hr].
  - intros base_dir w. destruct (Hrun base_dir w) as (w' & Hto & _).
    exists w', (expected_events np_int_dtype base_dir df labels).
    split; [exact Hto|]. rewrite written_csv_expected.
    split; [now rewrite map_map, map_id|].
    apply Forall_map. apply Forall_forall. intros p _. exact Hr.
Qed.

(** C3 at the sample generator, entered in state 0. *)
Lemma C3_feature_ranges_witness :
  exists df g',
    @create_sample_data Z Lcg.numpy_random 0 = Some (df, g') /\
    within_documented_ranges df.
Proof.
  exact (proj1 (proj2 (C3_feature_ranges Z Lcg.numpy_random)) 0).
Defined.

(** C4: every generated dataset has exactly 1000 rows and 21 columns, and
    its column names are the fixed schema, in order; each of the 21
    columns holds exactly 1000 cells.  A run writes five such tables, one
    per dataset name. *)
Theorem C4_shape_and_schema (G : Type) (NP : NumPyRandom G) :
  (forall g : G,
      exists df g',
        create_sample_data g = Some (df, g') /\
        df_shape df = (1000, 21)%nat /\ df_columns df = schema /\
        length df = 21%nat /\
        Forall (fun kc => length (snd kc) = 1000%nat) df) /\
  (forall base_dir (w : World G),
      exists w' new,
        runs_to base_dir w w' new /\
        map fst (written_csv new) = csv_paths base_dir /\
        length (written_csv new) = 5%nat /\
        Forall (fun pd => df_shape (snd pd) = (1000, 21)%nat /\
                          df_columns (snd pd) = schema /\
                          length (snd pd) = 21%nat /\
                          Forall (fun kc => length (snd kc) = 1000%nat)
                            (snd pd))
          (written_csv new)).
Proof.
  destruct (@run_of_generator G NP)
    as (df & labels & g' & Hcreate & Hgen & _ & _ & _ & Hrun).
  assert (Hs : df_shape df = (1000, 21)%nat /\ df_columns df = schema /\
               length df = 21%nat /\
               Forall (fun kc => length (snd kc) = 1000%nat) df).
  { pose proof (generated_columns df g' Hgen) as Hc.
    unfold df_shape. rewrite (generated_len df g' Hgen), Hc.
    split; [reflexivity|]. split; [reflexivity|]. split.
    - unfold df_columns in Hc.
      rewrite <- (length_map fst df), Hc. reflexivity.
    - eapply Forall_impl; [|exact (generated_cells df g' Hgen)].
      intros kc [Hl _]. exact Hl. }
  split.
  - intros g. exists df, g'. split; [apply Hcreate | exact Hs].
  - intros base_dir w. destruct (Hrun base_dir w) as (w' & Hto & _).
    exists w', (expected_events np_int_dtype base_dir df labels).
    split; [exact Hto|]. rewrite written_csv_expected.
    split; [now rewrite map_map, map_id|].
    split; [reflexivity|].
    apply Forall_map. apply Forall_forall. intros p _. exact Hs.
Qed.

(** C4 at the sample generator, entered in state 0. *)
Lemma C4_shape_and_schema_witness :
  exists df g',
    @create_sample_data Z Lcg.numpy_random 0 = Some (df, g') /\
    df_shape df = (1000, 21)%nat /\ df_columns df = schema /\
    length df = 21%nat /\
    Forall (fun kc => length (snd kc) = 1000%nat) df.
Proof. exact (proj1 (C4_shape_and_schema Z Lcg.numpy_random) 0). Defined.

(** C5: in every generated dataset the label column [defects] holds only
    the values 0 and 1. *)
Theorem C5_labels_binary (G : Type) (NP : NumPyRandom G) :
  (forall g : G,
      exists df g', create_sample_data g = Some (df, g') /\ binary_labels df) /\
  (forall base_dir (w : World G),
      exists w' new,
        runs_to base_dir w w' new /\
        map fst (written_csv new) = csv_paths base_dir /\
        Forall (fun pd => binary_labels (snd pd)) (written_csv new)).
Proof.
  destruct (@run_of_generator G NP)
    as (df & labels & g' & Hcreate & Hgen & Hdef & _ & Hb & Hrun).
  assert (Hbin : binary_labels df).
  { exists (map Int labels). split; [exact Hdef|].
    apply Forall_map. eapply Forall_impl; [|exact Hb].
    intros z Hz. cbv beta in Hz |- *.
    assert (z = 0 \/ z = 1) as [-> | ->] by lia; [now left | now right]. }
  split.
  - intros g. exists df, g'. split; [apply Hcreate | exact Hbin].
  - intros base_dir w. destruct (Hrun base_dir w) as (w' & Hto & _).
    exists w', (expected_events np_int_dtype base_dir df labels).
    split; [exact Hto|]. rewrite written_csv_expected.
    split; [now rewrite map_map, map_id|].
    apply Forall_map. apply Forall_forall. intros p _. exact Hbin.
Qed.

(** C5 at the sample generator, entered in state 0. *)
Lemma C5_labels_binary_witness :
  exists df g',
    @create_sample_data Z Lcg.numpy_random 0 = Some (df, g') /\
    binary_labels df.
Proof. exact (proj1 (C5_labels_binary Z Lcg.numpy_random) 0). Defined.

(** C6: the metadata document written by a run has exactly five entries in
    its [files] list, one per dataset in the order kc1, kc2, pc1, pc2, cm1;
    each entry records 1000 rows and 21 columns, and its [defect_rate] is
    the mean of the [defects] column of the table written under the
    entry's file name (the sum of the labels over their number), formatted
    as a percentage with two decimals.  With k the sum of the 1000 labels,
    that text is the decimal digits of k/10, a point, the digit k mod 10, a
    0 and the percent sign. *)
Theorem C6_metadata_files (G : Type) (NP : NumPyRandom G)
  (base_dir : Path) (w : World G) :
  exists w' new doc,
    runs_to base_dir w w' new /\
    dumped_json new = [(metadata_file base_dir, doc)] /\
    map fst (written_csv new) = csv_paths base_dir /\
    length (files doc) = 5%nat /\
    map filename (files doc)
    = ["kc1.csv"; "kc2.csv"; "pc1.csv"; "pc2.csv"; "cm1.csv"] /\
    Forall2
      (fun fi pd =>
         filename fi = path_name (fst pd) /\
         rows fi = 1000%nat /\
         columns fi = 21%nat /\
         exists labels,
           df_getitem (snd pd) "defects" = Some (map Int labels) /\
           length labels = 1000%nat /\
           0 <= Zsum labels <= 1000 /\
           series_mean (map Int labels)
           = Some (inject_Z (Zsum labels)
                   / inject_Z (Z.of_nat (length labels)))%Q /\
           defect_rate fi = format_percent (series_mean (map Int labels)) /\
           defect_rate fi
           = (string_of_Z (Zsum labels / 10) ++ "."
                ++ string_of_Z (Zsum labels mod 10) ++ "0%")%string)
      (files doc) (written_csv new).
Proof.
  destruct (@run_of_generator G NP)
    as (df & labels & g' & _ & _ & Hdef & Hl & Hb & Hrun).
  destruct (Hrun base_dir w) as (w' & Hto & _).
  assert (Hmean : series_mean (map Int labels)
                  = Some (inject_Z (Zsum labels)
                          / inject_Z (Z.of_nat (length labels)))%Q).
  { apply series_mean_ints. intros ->. discriminate Hl. }
  pose proof (Zsum_binary_bounds labels Hb) as Hk.
  rewrite Hl in Hk. change (Z.of_nat n_samples) with 1000 in Hk.
  eexists w', (expected_events np_int_dtype base_dir df labels), _.
  split; [exact Hto|].
  split; [apply dumped_json_expected|].
  rewrite written_csv_expected.
  split; [now rewrite map_map, map_id|].
  split; [reflexivity|]. split; [reflexivity|].
  cbn [files map dataset_names csv_paths].
  repeat (constructor;
          [ cbn [fst snd]; rewrite path_name_div;
            split; [reflexivity|]; split; [reflexivity|];
            split; [reflexivity|];
            exists labels; split; [exact Hdef|]; split; [exact Hl|];
            split; [exact Hk|]; split; [exact Hmean|];
            split;
            [ rewrite Hmean, Hl; reflexivity
            | cbn [defect_rate expected_file_info];
              apply format_percent_thousandths; lia ]
          | ]).
  constructor.
Qed.

(** C6 for a run of the sample generator from [sample_world]. *)
Lemma C6_metadata_files_witness :
  exists w' new doc,
    @runs_to Z Lcg.numpy_random ["repo"] sample_world w' new /\
    dumped_json new = [(metadata_file ["repo"], doc)] /\
    map filename (files doc)
    = ["kc1.csv"; "kc2.csv"; "pc1.csv"; "pc2.csv"; "cm1.csv"] /\
    Forall (fun fi =>
              rows fi = 1000%nat /\ columns fi = 21%nat /\
              exists k,
                0 <= k <= 1000 /\
                defect_rate fi
                = (string_of_Z (k / 10) ++ "."
                     ++ string_of_Z (k mod 10) ++ "0%")%string)
      (files doc).
Proof.
  destruct (C6_metadata_files Z Lcg.numpy_random ["repo"] sample_world)
    as (w' & new & doc & Hto & Hdump & _ & _ & Hnames & Hall).
  exists w', new, doc. repeat (split; [assumption|]).
  clear -Hall.
  induction Hall
    as [|fi pd fis pds (_ & Hr & Hc & labels & _ & _ & Hk & _ & _ & Ht) _ IH];
    constructor; [|exact IH].
  split; [exact Hr|]. split; [exact Hc|].
  exists (Zsum labels). split; [exact Hk | exact Ht].
Defined.

(** C7: the generator never produces a missing value, and in the metadata
    document every entry reports, for each of the 21 columns of the schema,
    a missing-value count of 0. *)
Theorem C7_no_missing_values (G : Type) (NP : NumPyRandom G) :
  (forall g : G,
      exists df g', create_sample_data g = Some (df, g') /\ no_missing df) /\
  (forall base_dir (w : World G),
      exists w' new doc,
        runs_to base_dir w w' new /\
        dumped_json new = [(metadata_file base_dir, doc)] /\
        length (files doc) = 5%nat /\
        Forall (fun fi =>
                  dict_keys (missing_values fi) = schema /\
                  length (missing_values fi) = 21%nat /\
                  Forall (fun kv => snd kv = 0) (missing_values fi))
          (files doc)).
Proof.
  destruct (@run_of_generator G NP)
    as (df & labels & g' & Hcreate & Hgen & _ & _ & _ & Hrun).
  split.
  - intros g. exists df, g'. split; [apply Hcreate|].
    exact (generated_no_missing df g' Hgen).
  - intros base_dir w. destruct (Hrun base_dir w) as (w' & Hto & _).
    eexists w', (expected_events np_int_dtype base_dir df labels), _.
    split; [exact Hto|].
    split; [apply dumped_json_expected|].
    split; [reflexivity|].
    cbn [files]. apply Forall_map. apply Forall_forall. intros name _.
    cbn [missing_values expected_file_info].
    split; [|split].
    + unfold dict_keys. rewrite map_map. apply map_id.
    + reflexivity.
    + apply Forall_map. apply Forall_forall. reflexivity.
Qed.

(** C7 at the sample generator, entered in state 0. *)
Lemma C7_no_missing_values_witness :
  exists df g',
    @create_sample_data Z Lcg.numpy_random 0 = Some (df, g') /\
    no_missing df.
Proof. exact (proj1 (C7_no_missing_values Z Lcg.numpy_random) 0). Defined.

(** C8: the final summary of a run prints a dataset count of 5, a total
    row count of 5000, which is the sum of the row counts of the five
    tables, and an average defect rate that is the unweighted mean (the sum
    over five) of the five per-dataset rates, each rate being the mean of
    the [defects] column of one table: the sum of its 1000 labels over
    1000.  With k that sum (the same for the five tables), the line printed
    is "Average defect rate: " followed by the decimal digits of k/10, a
    point, the digit k mod 10, a 0 and the percent sign. *)
Theorem C8_summary (G : Type) (NP : NumPyRandom G)
  (base_dir : Path) (w : World G) :
  exists w' new rates pre post k,
    runs_to base_dir w w' new /\
    length (written_csv new) = 5%nat /\
    nat_sum (map (fun pd => df_len (snd pd)) (written_csv new)) = 5000%nat /\
    Forall2
      (fun pd r =>
         exists col,
           df_getitem (snd pd) "defects" = Some col /\
           series_mean col = Some r)
      (written_csv new) rates /\
    Forall2
      (fun pd r =>
         exists labels,
           df_getitem (snd pd) "defects" = Some (map Int labels) /\
           length labels = 1000%nat /\
           Zsum labels = k /\
           r = (inject_Z (Zsum labels)
                / inject_Z (Z.of_nat (length labels)))%Q)
      (written_csv new) rates /\
    0 <= k <= 1000 /\
    (exists r1 r2 r3 r4 r5,
        rates = [r1; r2; r3; r4; r5] /\
        (Qsum rates / 5 == (r1 + r2 + r3 + r4 + r5) / 5)%Q /\
        (Qsum rates / 5 == inject_Z k / 1000)%Q) /\
    np_mean (map Some rates) = Some (Qsum rates / 5)%Q /\
    format_percent (Some (Qsum rates / 5)%Q)
    = (string_of_Z (k / 10) ++ "." ++ string_of_Z (k mod 10) ++ "0%")%string /\
    printed new
    = pre
      ++ ["Total datasets: 5"; "Total samples: 5000";
          ("Average defect rate: "
             ++ format_percent (Some (Qsum rates / 5)%Q))%string]
      ++ post /\
    printed new
    = pre
      ++ ["Total datasets: 5"; "Total samples: 5000";
          ("Average defect rate: "
             ++ string_of_Z (k / 10) ++ "." ++ string_of_Z (k mod 10)
             ++ "0%")%string]
      ++ post.
Proof.
  destruct (@run_of_generator G NP)
    as (df & labels & g' & _ & Hgen & Hdef & Hl & Hb & Hrun).
  destruct (Hrun base_dir w) as (w' & Hto & _).
  destruct (printed_expected np_int_dtype base_dir df labels)
    as (pre & post & Hp).
  pose proof (Zsum_binary_bounds labels Hb) as Hk.
  rewrite Hl in Hk. change (Z.of_nat n_samples) with 1000 in Hk.
  set (q := (inject_Z (Zsum labels) / 1000)%Q).
  assert (Hfmt : format_percent (Some (Qsum (repeat q 5) / 5)%Q)
                 = (string_of_Z (Zsum labels / 10) ++ "."
                      ++ string_of_Z (Zsum labels mod 10) ++ "0%")%string).
  { rewrite (format_percent_Qeq _ q (mean_of_five_equal q)).
    apply format_percent_thousandths. lia. }
  exists w', (expected_events np_int_dtype base_dir df labels),
    (repeat q 5), pre, post, (Zsum labels).
  split; [exact Hto|].
  rewrite written_csv_expected.
  split; [reflexivity|].
  split.
  { rewrite map_map. cbn [snd map csv_paths dataset_names].
    rewrite (generated_len df g' Hgen). reflexivity. }
  split.
  { cbn [map csv_paths dataset_names repeat].
    repeat (constructor;
            [ exists (map Int labels); split; [exact Hdef|];
              rewrite series_mean_ints, Hl by (intros ->; discriminate Hl);
              reflexivity | ]).
    constructor. }
  split.
  { cbn [map csv_paths dataset_names repeat].
    repeat (constructor;
            [ exists labels; split; [exact Hdef|]; split; [exact Hl|];
              split; [reflexivity|]; rewrite Hl; reflexivity | ]).
    constructor. }
  split; [exact Hk|].
  split.
  { exists q, q, q, q, q. split; [reflexivity|]. split.
    - unfold Qsum. simpl. field.
    - apply mean_of_five_equal. }
  split; [reflexivity|].
  split; [exact Hfmt|].
  split; [exact Hp|].
  rewrite Hp.
  change (np_mean (repeat (Some (inject_Z (Zsum labels) / 1000)%Q) 5))
    with (Some (Qsum (repeat q 5) / 5)%Q).
  rewrite Hfmt. reflexivity.
Qed.

(** C8 for a run of the sample generator from [sample_world]. *)
Lemma C8_summary_witness :
  exists w' new k,
    @runs_to Z Lcg.numpy_random ["repo"] sample_world w' new /\
    0 <= k <= 1000 /\
    In "Total datasets: 5" (printed new) /\
    In "Total samples: 5000" (printed new) /\
    In ("Average defect rate: "
          ++ string_of_Z (k / 10) ++ "." ++ string_of_Z (k mod 10)
          ++ "0%")%string (printed new).
Proof.
  destruct (C8_summary Z Lcg.numpy_random ["repo"] sample_world)
    as (w' & new & rates & pre & post & k & Hto & _ & _ & _ & _ & Hk & _ & _
        & _ & _ & Hp).
  exists w', new, k. split; [exact Hto|]. split; [exact Hk|].
  rewrite Hp. repeat split; apply in_or_app; right; simpl; tauto.
Defined.

(** C9: the defect probability the generator computes is strictly
    increasing in each of loc, v_g, ev_g and d, on the rows the generator
    can produce.  Take two dictionaries of feature arrays whose row [i]
    holds features within the generated ranges in both, and differs in
    that exactly one of the four features is larger in the second while
    the other three are equal: the probability computed for row [i] is
    strictly larger in the second. *)
Theorem C9_probability_monotone (data data' : dict (list Z))
  (score score' : list R) (i : nat)
  (loc v_g ev_g d loc' v_g' ev_g' d' : Z) (p p' : R) :
  complexity_score data = Some score ->
  complexity_score data' = Some score' ->
  feature data "loc" i = Some loc -> feature data "v_g" i = Some v_g ->
  feature data "ev_g" i = Some ev_g -> feature data "d" i = Some d ->
  feature data' "loc" i = Some loc' -> feature data' "v_g" i = Some v_g' ->
  feature data' "ev_g" i = Some ev_g' -> feature data' "d" i = Some d' ->
  row_in_ranges (loc, v_g, ev_g, d) ->
  row_in_ranges (loc', v_g', ev_g', d') ->
  nth_error (defect_prob score) i = Some p ->
  nth_error (defect_prob score') i = Some p' ->
  one_feature_increased (loc, v_g, ev_g, d) (loc', v_g', ev_g', d') ->
  (p < p')%R.
Proof.
  intros Hs Hs' Fl Fv Fe Fd Fl' Fv' Fe' Fd' _ _ Hp Hp' Hinc.
  rewrite defect_prob_nth,
    (complexity_score_nth _ _ _ _ _ _ _ Hs Fl Fv Fe Fd) in Hp.
  rewrite defect_prob_nth,
    (complexity_score_nth _ _ _ _ _ _ _ Hs' Fl' Fv' Fe' Fd') in Hp'.
  injection Hp as <-. injection Hp' as <-.
  apply spec_logistic_increasing.
  unfold one_feature_increased in Hinc.
  apply spec_score_increasing; lia.
Qed.

(** A row with loc = 10 against the same row with loc = 11. *)
Lemma C9_probability_monotone_witness :
  complexity_score (sample_row 10 1 1 1 1) = Some [spec_score 10 1 1 1] /\
  complexity_score (sample_row 11 1 1 1 1) = Some [spec_score 11 1 1 1] /\
  row_in_ranges (10, 1, 1, 1) /\
  row_in_ranges (11, 1, 1, 1) /\
  one_feature_increased (10, 1, 1, 1) (11, 1, 1, 1) /\
  (spec_prob 10 1 1 1 < spec_prob 11 1 1 1)%R.
Proof.
  assert (Hinc : one_feature_increased (10, 1, 1, 1) (11, 1, 1, 1))
    by (left; repeat split; lia).
  assert (Hr : row_in_ranges (10, 1, 1, 1)) by (unfold row_in_ranges; lia).
  assert (Hr' : row_in_ranges (11, 1, 1, 1)) by (unfold row_in_ranges; lia).
  split; [reflexivity|]. split; [reflexivity|].
  split; [exact Hr|]. split; [exact Hr'|]. split; [exact Hinc|].
  apply (C9_probability_monotone
           (sample_row 10 1 1 1 1) (sample_row 11 1 1 1 1)
           [spec_score 10 1 1 1] [spec_score 11 1 1 1] 0
           10 1 1 1 11 1 1 1);
    try reflexivity; assumption.
Defined.

(** C10: the defect probabilities are a function of the four columns loc,
    v_g, ev_g and d only: two dictionaries of feature arrays that agree on
    these four keys, however they differ elsewhere (the design complexity
    iv_g included), yield the same probabilities. *)
Theorem C10_probability_depends_on_four (data data' : dict (list Z)) :
  (forall k, In k contributing -> dict_get data k = dict_get data' k) ->
  option_map defect_prob (complexity_score data)
  = option_map defect_prob (complexity_score data').
Proof.
  intros Hagree. unfold complexity_score.
  rewrite !(Hagree _) by (unfold contributing; simpl; tauto).
  reflexivity.
Qed.

(** The same row with iv_g = 1 and with iv_g = 29. *)
Lemma C10_probability_depends_on_four_witness :
  dict_get (sample_row 10 1 1 1 1) "iv_g"
  <> dict_get (sample_row 10 1 1 29 1) "iv_g" /\
  option_map defect_prob (complexity_score (sample_row 10 1 1 1 1))
  = option_map defect_prob (complexity_score (sample_row 10 1 1 29 1)).
Proof.
  split; [discriminate|].
  apply C10_probability_depends_on_four.
  intros k Hin. unfold contributing in Hin. simpl in Hin.
  destruct Hin as [<-|[<-|[<-|[<-|[]]]]]; reflexivity.
Defined.

(** * Further properties of the run and of the generator *)

(** ** Vocabulary *)

(** [p.parent] *)
Definition path_parent (p : Path) : Path := removelast p.

Definition raw_dir (base_dir : Path) : Path :=
  path_div (path_div base_dir "data") "raw".

Definition metadata_dir (base_dir : Path) : Path :=
  path_div (path_div base_dir "data") "metadata".

(** The paths a trace calls [mkdir] on, in order.  Whether a call creates
    a directory depends on the file system it meets (see [path_mkdir]). *)
Definition mkdir_calls (evs : list event) : list Path :=
  flat_map (fun e => match e with Mkdir p _ _ => [p] | _ => [] end) evs.

(** The paths of the files a trace writes, in order. *)
Definition written_paths (evs : list event) : list Path :=
  flat_map (fun e =>
              match e with
              | ToCsv p _ _ => [p]
              | JsonDump p _ _ _ => [p]
              | _ => []
              end) evs.

(** The frames a trace prints. *)
Definition printed_frames (evs : list event) : list DataFrame :=
  flat_map (fun e => match e with PrintFrame df => [df] | _ => [] end) evs.

(** The twenty feature arrays drawn one after the other, each from the
    state the draw before it left. *)
Fixpoint draw_columns {G : Type} {NP : NumPyRandom G}
  (ranges : list (string * (Z * Z))) (size : nat) (g : G)
  : option (list (list Z) * G) :=
  match ranges with
  | [] => Some ([], g)
  | r :: ranges' =>
      match np_randint (fst (snd r)) (snd (snd r)) size g with
      | Some (xs, g1) =>
          match draw_columns ranges' size g1 with
          | Some (cols, g2) => Some (xs :: cols, g2)
          | None => None
          end
      | None => None
      end
  end.

(** *** The file system under the run

    The events of a run are the calls it makes; what a call does, and
    whether it raises, depends on the file system it meets.  A file system
    says which paths are directories and what each regular file holds; the
    empty path (the root, or the current directory of a relative path) is
    always a directory. *)

(** What one call writes into a file. *)
Inductive chunk : Type :=
| CsvText (df : DataFrame) (index : bool)
| JsonText (doc : metadata_info) (indent : Z).

Record FS : Type := {
  fs_dir : Path -> bool;
  fs_file : Path -> option (list chunk)
}.

Definition path_eq_dec : forall p q : Path, {p = q} + {p <> q} :=
  list_eq_dec string_dec.

Definition path_eqb (p q : Path) : bool :=
  if path_eq_dec p q then true else false.

Definition is_dir (fs : FS) (p : Path) : bool :=
  match p with
  | [] => true
  | _ => fs_dir fs p
  end.

Definition is_file (fs : FS) (p : Path) : bool :=
  match fs_file fs p with
  | Some _ => true
  | None => false
  end.

Definition exists_at (fs : FS) (p : Path) : bool := is_dir fs p || is_file fs p.

Definition add_dir (fs : FS) (p : Path) : FS :=
  {| fs_dir := fun q => path_eqb p q || fs_dir fs q;
     fs_file := fs_file fs |}.

Definition set_file (fs : FS) (p : Path) (c : list chunk) : FS :=
  {| fs_dir := fs_dir fs;
     fs_file := fun q => if path_eqb p q then Some c else fs_file fs q |}.

(** [p.mkdir(parents=..., exist_ok=...)] as pathlib does it: try to make
    [p]; if [p] exists, that is an error unless [exist_ok] holds and [p] is
    a directory; if the parent is missing, that is an error unless
    [parents] holds, in which case the parent is made first (with
    [parents=True, exist_ok=True]) and [p] after it; a regular file in the
    way is always an error.  [fuel] bounds the climb to the parents. *)
Fixpoint path_mkdir (fuel : nat) (parents exist_ok : bool) (p : Path)
  (fs : FS) : option FS :=
  if exists_at fs p then
    if exist_ok && is_dir fs p then Some fs else None
  else if is_dir fs (path_parent p) then Some (add_dir fs p)
  else if is_file fs (path_parent p) then None
  else if parents then
    match fuel with
    | O => None
    | S fuel' =>
        match path_mkdir fuel' true true (path_parent p) fs with
        | Some fs' => path_mkdir fuel' false exist_ok p fs'
        | None => None
        end
    end
  else None.

(** Opening [p] in [mode] and writing [c]: an error when [p] is a
    directory, when its parent is not one, or when [mode] is ['x'] and the
    file exists; ['w'] replaces the content, ['a'] extends it. *)
Definition open_write (mode : open_mode) (p : Path) (c : chunk) (fs : FS)
  : option FS :=
  if is_dir fs p then None
  else if negb (is_dir fs (path_parent p)) then None
  else
    match mode, fs_file fs p with
    | ModeX, Some _ => None
    | ModeA, Some old => Some (set_file fs p (old ++ [c]))
    | _, _ => Some (set_file fs p [c])
    end.

(** What one event does to the file system; [None] when the call raises.
    [to_csv] opens its file in mode ['w']. *)
Definition fs_step (fs : FS) (e : event) : option FS :=
  match e with
  | Mkdir p parents exist_ok => path_mkdir (length p) parents exist_ok p fs
  | ToCsv p df index => open_write ModeW p (CsvText df index) fs
  | JsonDump p doc mode indent => open_write mode p (JsonText doc indent) fs
  | Print _ => Some fs
  | PrintFrame _ => Some fs
  end.

(** The events of a trace, one after the other, until one raises. *)
Fixpoint fs_run (fs : FS) (evs : list event) : option FS :=
  match evs with
  | [] => Some fs
  | e :: evs' =>
      match fs_step fs e with
      | Some fs' => fs_run fs' evs'
      | None => None
      end
  end.




(** A file system with nothing in it. *)
Definition empty_fs : FS :=
  {| fs_dir := fun _ => false; fs_file := fun _ => None |}.





(** ** Paths *)

Lemma path_parent_div (p : Path) (name : string) :
  path_parent (path_div p name) = p.
Proof. apply removelast_last. Qed.

Lemma path_div_inj (p : Path) (a b : string) :
  path_div p a = path_div p b -> a = b.
Proof.
  unfold path_div. intros H. apply app_inv_head in H. now injection H.
Qed.


(** ** The file operations *)

Example mkdir_parents_on_empty :
  option_map (fun fs => (fs_dir fs ["a"], fs_dir fs ["a"; "b"],
                         fs_dir fs ["a"; "b"; "c"], fs_dir fs ["x"]))
    (fs_step empty_fs (Mkdir ["a"; "b"; "c"] true true))
  = Some (true, true, true, false).
Proof. reflexivity. Qed.

Example mkdir_without_parents_raises :
  fs_step empty_fs (Mkdir ["a"; "b"] false true) = None.
Proof. reflexivity. Qed.

Example mkdir_existing_without_exist_ok_raises :
  fs_run empty_fs [Mkdir ["a"] true true; Mkdir ["a"] true false] = None.
Proof. reflexivity. Qed.

Example write_without_directory_raises :
  fs_step empty_fs (ToCsv ["a"; "t.csv"] [] false) = None.
Proof. reflexivity. Qed.

Example mkdir_over_a_file_raises :
  fs_run empty_fs [ToCsv ["a"] [] false; Mkdir ["a"] true true] = None.
Proof. reflexivity. Qed.

Example mkdir_under_a_file_raises :
  fs_run empty_fs [ToCsv ["a"] [] false; Mkdir ["a"; "b"] true true] = None.
Proof. reflexivity. Qed.

(** ** Paths and single operations *)









Lemma exists_at_nil (fs : FS) : exists_at fs [] = true.
Proof. reflexivity. Qed.










(** ** Traces *)


















(** ** The file operations of one run *)








(** ** The frame preview *)

Lemma df_head_columns (df : DataFrame) : df_columns (df_head df) = df_columns df.
Proof. unfold df_columns, df_head. rewrite map_map. reflexivity. Qed.

Lemma nth_error_firstn_lt {A : Type} (n i : nat) (l : list A) :
  (i < n)%nat -> nth_error (firstn n l) i = nth_error l i.
Proof.
  revert i l. induction n as [|n IH]; intros i l Hi; [lia|].
  destruct l as [|x l]; [reflexivity|].
  destruct i as [|i]; [reflexivity|]. simpl. apply IH. lia.
Qed.

Lemma df_head_at (df : DataFrame) (k : string) (i : nat) :
  (i < 5)%nat -> df_at (df_head df) k i = df_at df k i.
Proof.
  intros Hi. unfold df_at, df_getitem, df_head, obind.
  induction df as [|[k' col] df IH]; [reflexivity|].
  cbn [map dict_get fst snd].
  destruct (String.eqb k' k); [|exact IH].
  now apply nth_error_firstn_lt.
Qed.

Lemma df_head_len (df : DataFrame) :
  (5 <= df_len df)%nat -> df_len (df_head df) = 5%nat.
Proof.
  destruct df as [|[k col] df]; cbn [df_len df_head map fst snd]; [lia|].
  intros H. rewrite length_firstn. lia.
Qed.

(** ** The whole run *)




(** X3: a run writes exactly six files, the five tables into
    data/processed and the metadata document into data/metadata; the
    directory data/raw is passed to [mkdir] and nothing is written into
    it. *)
Theorem X3_raw_stays_empty (G : Type) (NP : NumPyRandom G)
  (base_dir : Path) (w : World G) :
  exists w' new,
    main base_dir w = Some (tt, w') /\
    events w' = events w ++ new /\
    In (raw_dir base_dir) (mkdir_calls new) /\
    written_paths new = csv_paths base_dir ++ [metadata_file base_dir] /\
    Forall (fun p => path_parent p = processed_dir base_dir)
      (csv_paths base_dir) /\
    path_parent (metadata_file base_dir) = metadata_dir base_dir /\
    Forall (fun p => path_parent p <> raw_dir base_dir) (written_paths new).
Proof.
  destruct (@run_of_generator G NP)
    as (df & labels & g' & _ & _ & _ & _ & _ & Hrun).
  destruct (Hrun base_dir w) as (w' & [Hsim Hev] & _).
  exists w', (expected_events np_int_dtype base_dir df labels).
  split; [exact Hsim|]. split; [exact Hev|].
  split; [cbn; tauto|]. split; [reflexivity|].
  assert (Hne1 : processed_dir base_dir <> raw_dir base_dir).
  { intros H. apply path_div_inj in H. discriminate. }
  assert (Hne2 : metadata_dir base_dir <> raw_dir base_dir).
  { intros H. apply path_div_inj in H. discriminate. }
  split; [|split].
  - unfold csv_paths. apply Forall_map, Forall_forall. intros name _.
    apply path_parent_div.
  - apply path_parent_div.
  - cbn [written_paths expected_events flat_map app].
    repeat (constructor; [rewrite path_parent_div; assumption|]).
    constructor.
Qed.

(** X4: every entry of the metadata document lists the 21 column names of
    the schema in order, gives every one of them the integer dtype of the
    arrays NumPy returned, and describes the dataset by its name in upper
    case and its 1000 samples. *)
Theorem X4_metadata_entries (G : Type) (NP : NumPyRandom G)
  (base_dir : Path) (w : World G) :
  exists w' new doc,
    main base_dir w = Some (tt, w') /\
    events w' = events w ++ new /\
    dumped_json new = [(metadata_file base_dir, doc)] /\
    Forall (fun fi =>
              column_names fi = schema /\
              dict_keys (data_types fi) = schema /\
              Forall (fun kt => snd kt = np_int_dtype) (data_types fi))
      (files doc) /\
    map description (files doc)
    = ["Sample NASA KC1 dataset with 1000 samples";
       "Sample NASA KC2 dataset with 1000 samples";
       "Sample NASA PC1 dataset with 1000 samples";
       "Sample NASA PC2 dataset with 1000 samples";
       "Sample NASA CM1 dataset with 1000 samples"].
Proof.
  destruct (@run_of_generator G NP)
    as (df & labels & g' & _ & _ & _ & _ & _ & Hrun).
  destruct (Hrun base_dir w) as (w' & [Hsim Hev] & _).
  eexists w', (expected_events np_int_dtype base_dir df labels), _.
  split; [exact Hsim|]. split; [exact Hev|].
  split; [apply dumped_json_expected|].
  split; [|reflexivity].
  cbn [files]. apply Forall_map, Forall_forall. intros name _.
  cbn [column_names data_types expected_file_info].
  split; [reflexivity|]. split.
  - unfold dict_keys. rewrite map_map. apply map_id.
  - apply Forall_map, Forall_forall. reflexivity.
Qed.

(** X5: with k the number of rows labelled defective (between 0 and
    1000), every entry's defect rate reads k/10, a point, k mod 10 and a
    final 0 before the percent sign: a rate between 0.00% and 100.00%
    whose second decimal is always 0. *)
Theorem X5_defect_rate_text (G : Type) (NP : NumPyRandom G)
  (base_dir : Path) (w : World G) :
  exists w' new doc labels,
    main base_dir w = Some (tt, w') /\
    events w' = events w ++ new /\
    dumped_json new = [(metadata_file base_dir, doc)] /\
    Forall (fun pd => df_getitem (snd pd) "defects" = Some (map Int labels))
      (written_csv new) /\
    0 <= Zsum labels <= 1000 /\
    Forall (fun fi =>
              defect_rate fi
              = (string_of_Z (Zsum labels / 10) ++ "."
                   ++ string_of_Z (Zsum labels mod 10) ++ "0%")%string)
      (files doc).
Proof.
  destruct (@run_of_generator G NP)
    as (df & labels & g' & _ & _ & Hdef & Hl & Hb & Hrun).
  destruct (Hrun base_dir w) as (w' & [Hsim Hev] & _).
  pose proof (Zsum_binary_bounds labels Hb) as Hk.
  rewrite Hl in Hk. change (Z.of_nat n_samples) with 1000 in Hk.
  eexists w', (expected_events np_int_dtype base_dir df labels), _, labels.
  split; [exact Hsim|]. split; [exact Hev|].
  split; [apply dumped_json_expected|].
  split.
  { rewrite written_csv_expected. apply Forall_map, Forall_forall.
    intros p _. exact Hdef. }
  split; [exact Hk|].
  cbn [files]. apply Forall_map, Forall_forall. intros name _.
  cbn [defect_rate expected_file_info].
  apply format_percent_thousandths. lia.
Qed.

(** X6: because the five datasets are one and the same table, the average
    defect rate printed in the summary is, character for character, the
    defect rate recorded for each dataset in the metadata document. *)
Theorem X6_average_is_each_rate (G : Type) (NP : NumPyRandom G)
  (base_dir : Path) (w : World G) :
  exists w' new doc rate,
    main base_dir w = Some (tt, w') /\
    events w' = events w ++ new /\
    dumped_json new = [(metadata_file base_dir, doc)] /\
    length (files doc) = 5%nat /\
    Forall (fun fi => defect_rate fi = rate) (files doc) /\
    In ("Average defect rate: " ++ rate)%string (printed new).
Proof.
  destruct (@run_of_generator G NP)
    as (df & labels & g' & _ & _ & _ & _ & _ & Hrun).
  destruct (Hrun base_dir w) as (w' & [Hsim Hev] & _).
  destruct (printed_expected np_int_dtype base_dir df labels)
    as (pre & post & Hp).
  eexists w', (expected_events np_int_dtype base_dir df labels), _,
    (format_percent (Some (inject_Z (Zsum labels) / 1000)%Q)).
  split; [exact Hsim|]. split; [exact Hev|].
  split; [apply dumped_json_expected|].
  split; [reflexivity|]. split.
  - cbn [files]. apply Forall_map, Forall_forall. reflexivity.
  - rewrite Hp. apply in_or_app. right. apply in_or_app. left.
    right. right. left. f_equal.
    change (np_mean (repeat (Some (inject_Z (Zsum labels) / 1000)%Q) 5))
      with (Some (Qsum (repeat (inject_Z (Zsum labels) / 1000)%Q 5) / 5)%Q).
    apply format_percent_Qeq, mean_of_five_equal.
Qed.

(** X7: the one frame a run prints is the top of the kc1 table it wrote:
    five rows, the 21 columns of the schema, and in every column the first
    five cells of kc1. *)
Theorem X7_preview_is_head_of_kc1 (G : Type) (NP : NumPyRandom G)
  (base_dir : Path) (w : World G) :
  exists w' new kc1 preview,
    main base_dir w = Some (tt, w') /\
    events w' = events w ++ new /\
    hd_error (written_csv new)
    = Some (path_div (processed_dir base_dir) "kc1.csv", kc1) /\
    printed_frames new = [preview] /\
    df_shape preview = (5, 21)%nat /\
    df_columns preview = schema /\
    forall k i, (i < 5)%nat -> df_at preview k i = df_at kc1 k i.
Proof.
  destruct (@run_of_generator G NP)
    as (df & labels & g' & _ & Hgen & _ & _ & _ & Hrun).
  destruct (Hrun base_dir w) as (w' & [Hsim Hev] & _).
  exists w', (expected_events np_int_dtype base_dir df labels), df,
    (df_head df).
  split; [exact Hsim|]. split; [exact Hev|].
  split; [reflexivity|]. split; [reflexivity|].
  assert (Hcols : df_columns (df_head df) = schema)
    by (rewrite df_head_columns; exact (generated_columns df g' Hgen)).
  split; [|split; [exact Hcols|]].
  - unfold df_shape. rewrite Hcols, df_head_len; [reflexivity|].
    rewrite (generated_len df g' Hgen). unfold n_samples. lia.
  - intros k i Hi. now apply df_head_at.
Qed.

(** ** More on the generator *)

Lemma within_ranges_at (df : DataFrame) (r : string * (Z * Z)) (i : nat)
  (z : Z) :
  within_documented_ranges df -> In r documented_ranges ->
  df_at df (fst r) i = Some (Int z) -> in_range r z.
Proof.
  intros Hw Hin Hat. unfold within_documented_ranges in Hw.
  rewrite Forall_forall in Hw. destruct (Hw r Hin) as (col & Hget & Hall).
  unfold df_at, obind in Hat. rewrite Hget in Hat.
  apply nth_error_In in Hat. rewrite Forall_forall in Hall.
  destruct (Hall _ Hat) as (z' & Heq & Hr). now injection Heq as ->.
Qed.

Lemma spec_prob_above_quarter (loc v_g ev_g d : Z) :
  0 <= loc -> 0 < v_g -> 0 <= ev_g -> 0 <= d ->
  (1 / 4 < spec_prob loc v_g ev_g d < 1)%R.
Proof.
  intros Hloc Hvg Hevg Hd.
  split; [|apply spec_logistic_bounds].
  assert (Hs : (0 < spec_score loc v_g ev_g d)%R).
  { unfold spec_score.
    apply IZR_le in Hloc, Hevg, Hd. apply IZR_lt in Hvg. lra. }
  unfold spec_prob, spec_logistic.
  set (s := spec_score loc v_g ev_g d) in *.
  assert (He : (exp (-2 * (s - 0.5)) < 3)%R).
  { apply Rlt_le_trans with (exp 1); [|apply exp_le_3].
    apply exp_increasing. lra. }
  pose proof (exp_pos (-2 * (s - 0.5))) as Hp.
  assert (Hi : (/ 4 < / (1 + exp (-2 * (s - 0.5))))%R)
    by (apply Rinv_lt_contravar; lra).
  unfold Rdiv. lra.
Qed.



(** X9: every probability the generator hands to the binomial sampler
    lies strictly between 1/4 and 1.  The features are positive, so the
    score is positive and the logistic exceeds 1/(1 + e); the sampler is
    therefore never given an invalid probability. *)
Theorem X9_probabilities_above_quarter (G : Type) (NP : NumPyRandom G)
  (g : G) :
  exists df g_end probs g_draw labels,
    create_sample_data g = Some (df, g_end) /\
    np_binomial 1 probs (df_len df) g_draw = Some (labels, g_end) /\
    df_getitem df "defects" = Some (map Int labels) /\
    length probs = df_len df /\
    Forall (fun p => (1 / 4 < p < 1)%R) probs.
Proof.
  destruct (create_sample_data_generated g) as (df & g_end & E & Hgen).
  destruct (generated_probabilities df g_end Hgen)
    as (probs & g_draw & labels & Hl & Hb & Hdef & Hrows).
  pose proof (generated_within_ranges df g_end Hgen) as Hw.
  exists df, g_end, probs, g_draw, labels.
  rewrite (generated_len df g_end Hgen).
  repeat (split; [assumption|]).
  apply Forall_forall. intros p Hin.
  apply In_nth_error in Hin as [i Hi].
  assert (Hlt : (i < n_samples)%nat).
  { rewrite <- Hl. apply nth_error_Some. congruence. }
  destruct (Hrows i Hlt) as (loc & v_g & ev_g & d & Al & Av & Ae & Ad & Hp).
  rewrite Hp in Hi. injection Hi as <-.
  pose proof (within_ranges_at df ("loc", (10, 10000)) i loc Hw) as Rl.
  pose proof (within_ranges_at df ("v_g", (1, 50)) i v_g Hw) as Rv.
  pose proof (within_ranges_at df ("ev_g", (1, 100)) i ev_g Hw) as Re.
  pose proof (within_ranges_at df ("d", (1, 100)) i d Hw) as Rd.
  unfold documented_ranges, in_range in Rl, Rv, Re, Rd.
  cbn [fst snd In] in Rl, Rv, Re, Rd.
  specialize (Rl ltac:(tauto) Al). specialize (Rv ltac:(tauto) Av).
  specialize (Re ltac:(tauto) Ae). specialize (Rd ltac:(tauto) Ad).
  apply spec_prob_above_quarter; lia.
Qed.

Lemma draw_columns_ok {G : Type} {NP : NumPyRandom G}
  (ranges : list (string * (Z * Z))) (size : nat) (g : G) :
  Forall (fun r => int64_min <= fst (snd r) /\ fst (snd r) < snd (snd r) /\
                   snd (snd r) <= int64_max + 1) ranges ->
  exists cols g',
    draw_columns ranges size g = Some (cols, g') /\
    Forall2 (fun r xs => length xs = size /\ Forall (in_range r) xs)
      ranges cols.
Proof.
  intros Hr. revert g.
  induction Hr as [|r ranges (H1 & H2 & H3) _ IH]; intros g.
  - exists [], g. split; [reflexivity | constructor].
  - destruct (np_randint_ok (fst (snd r)) (snd (snd r)) size g H1 H2 H3)
      as (xs & g1 & E & L & B).
    destruct (IH g1) as (cols & g' & Ed & HF).
    exists (xs :: cols), g'. cbn [draw_columns]. rewrite E, Ed.
    split; [reflexivity|]. constructor; [|exact HF]. now split.
Qed.

Lemma documented_ranges_valid :
  Forall (fun r => int64_min <= fst (snd r) /\ fst (snd r) < snd (snd r) /\
                   snd (snd r) <= int64_max + 1) documented_ranges.
Proof.
  unfold documented_ranges, int64_min, int64_max.
  repeat (constructor; [cbn [fst snd]; lia|]). constructor.
Qed.

(** X10: the table is the one obtained by seeding the generator with 42,
    drawing the twenty feature columns in the order of the schema, each
    from the state the previous draw left, and drawing the labels last,
    from the state the twentieth column left, at the probabilities computed
    from the features. *)
Theorem X10_draw_order (G : Type) (NP : NumPyRandom G) (g : G) :
  exists feats g20 score labels g_end,
    draw_columns documented_ranges n_samples (np_seed 42)
    = Some (feats, g20) /\
    complexity_score (combine feature_names feats) = Some score /\
    np_binomial 1 (defect_prob score) n_samples g20 = Some (labels, g_end) /\
    create_sample_data g
    = Some (frame_of (combine feature_names feats ++ [("defects", labels)]),
            g_end).
Proof.
  destruct (draw_columns_ok documented_ranges n_samples (np_seed 42)
              documented_ranges_valid) as (feats & g20 & Hdraw & HF).
  change (Forall2 column_ok documented_ranges feats) in HF.
  destruct (features_get feats ("loc", (10, 10000)) HF) as (a1 & G1 & L1 & _);
    [unfold documented_ranges; simpl; tauto|].
  destruct (features_get feats ("v_g", (1, 50)) HF) as (a2 & G2 & L2 & _);
    [unfold documented_ranges; simpl; tauto|].
  destruct (features_get feats ("ev_g", (1, 100)) HF) as (a3 & G3 & L3 & _);
    [unfold documented_ranges; simpl; tauto|].
  destruct (features_get feats ("d", (1, 100)) HF) as (a4 & G4 & L4 & _);
    [unfold documented_ranges; simpl; tauto|].
  destruct (complexity_score_total _ n_samples a1 a2 a3 a4 G1 G2 G3 G4
              L1 L2 L3 L4) as (score & Hs & Ls).
  destruct (np_binomial_ok 1 (defect_prob score) n_samples g20)
    as (labels & g_end & Eb & Lb & Bb).
  { unfold int64_max. lia. }
  { apply defect_prob_valid. }
  { now rewrite defect_prob_length. }
  exists feats, g20, score, labels, g_end.
  split; [exact Hdraw|]. split; [exact Hs|]. split; [exact Eb|].
  assert (Hlen : Forall (fun c => length c = n_samples)
                   (dict_values (combine feature_names feats
                                 ++ [("defects", labels)]))).
  { unfold dict_values. rewrite map_app. apply Forall_app. split.
    - fold (dict_values (combine feature_names feats)).
      unfold feature_names.
      rewrite (dict_values_combine column_ok fst _ _ HF).
      clear -HF.
      induction HF as [|r x rs l' [Hl _] _ IH]; constructor; assumption.
    - repeat constructor. exact Lb. }
  pose proof (features_fresh_defects feats HF) as Hfresh.
  cbn [draw_columns documented_ranges fst snd] in Hdraw.
  repeat match type of Hdraw with
         | context [np_randint ?lo ?hi ?n ?s] =>
             let E := fresh "E" in
             destruct (np_randint lo hi n s) as [[? ?]|] eqn:E;
             [|discriminate Hdraw]
         end.
  injection Hdraw as <- <-.
  unfold create_sample_data, bind, np_random_seed, np_random_randint,
    np_random_binomial.
  repeat match goal with
         | E : np_randint _ _ _ _ = Some _ |- _ => rewrite E; clear E
         end.
  cbv zeta.
  match goal with
  | |- context [dict_literal ?l] =>
      replace (dict_literal l) with (combine feature_names (map snd l))
        by reflexivity
  end.
  cbn [map snd].
  rewrite Hs. cbn [lift_opt]. rewrite Eb.
  rewrite (dict_set_fresh _ _ _ Hfresh).
  unfold pd_DataFrame. rewrite (same_length_all n_samples _ Hlen).
  reflexivity.
Qed.
